(** * FloodGuard backend: the prediction pipeline of [server.js]

    A shallow embedding of the risk engine ([loadModel],
    [calculateRiskFallback], [predictFloodRisk]), the three data-source
    clients ([fetchRainfallData], [fetchWaterLevel], [fetchSoilMoisture]),
    the alert gate ([sendFloodAlert]), the scheduled ingestion cycle and the
    manual trigger endpoint, followed by the properties proved about them.

    Conventions of the model.
    - A JavaScript number is a [number]: an exact rational, [NaN] or one of
      the two infinities.  Arithmetic on finite numbers is exact; the
      rounding of IEEE-754 binary64 and the sign of zero are not part of
      [number].  Module [Binary64] embeds the heuristic a second time over
      the binary64 floats of the kernel: the scenarios are evaluated there
      too, and [binary64_agrees_above_5] shows that the two embeddings give
      the same score wherever the rainfall is above 5.
    - An [async] function is run to completion as one step; what the
      outside world answers during that step (HTTP responses, the file
      system, TensorFlow, Firebase, MongoDB) is read from a record
      ([EngineEnv], [AlertEnv], [CycleEnv]).
    - A JavaScript exception is the [Throw] branch of [Completion];
      [try]/[catch] is [try_catch].
    - [console] output, the text of the notification and the URLs of the
      requests are not modelled. *)

From Stdlib Require Import ZArith QArith Qround Lqa Lia List String Bool.
From Stdlib Require Import DecimalString PrimFloat FloatOps SpecFloat Uint63.
From stdpp Require Import base option gmap.
Import ListNotations.

#[local] Set Warnings "-inexact-float,-register-all".

(** ** JavaScript numbers *)

Inductive number : Type :=
| Finite (q : Q)
| NaN
| PosInfinity
| NegInfinity.

Coercion Finite : Q >-> number.

Declare Scope number_scope.
Delimit Scope number_scope with number.
Bind Scope number_scope with number.

Definition Qltb (a b : Q) : bool := negb (Qle_bool b a).

(** [x > y]; every comparison with [NaN] is false. *)
Definition number_gt (x y : number) : bool :=
  match x, y with
  | Finite a, Finite b => Qltb b a
  | Finite _, NegInfinity => true
  | PosInfinity, Finite _ => true
  | PosInfinity, NegInfinity => true
  | _, _ => false
  end.

(** [x < y]. *)
Definition number_lt (x y : number) : bool := number_gt y x.

(** [x + y]. *)
Definition number_add (x y : number) : number :=
  match x, y with
  | Finite a, Finite b => Finite (a + b)%Q
  | NaN, _ | _, NaN => NaN
  | PosInfinity, NegInfinity | NegInfinity, PosInfinity => NaN
  | PosInfinity, _ | _, PosInfinity => PosInfinity
  | NegInfinity, _ | _, NegInfinity => NegInfinity
  end.

Definition scale_infinity (positive : bool) (a : Q) : number :=
  match (a ?= 0)%Q with
  | Eq => NaN
  | Gt => if positive then PosInfinity else NegInfinity
  | Lt => if positive then NegInfinity else PosInfinity
  end.

(** [x * y]. *)
Definition number_mul (x y : number) : number :=
  match x, y with
  | Finite a, Finite b => Finite (a * b)%Q
  | NaN, _ | _, NaN => NaN
  | PosInfinity, Finite a | Finite a, PosInfinity => scale_infinity true a
  | NegInfinity, Finite a | Finite a, NegInfinity => scale_infinity false a
  | PosInfinity, PosInfinity | NegInfinity, NegInfinity => PosInfinity
  | PosInfinity, NegInfinity | NegInfinity, PosInfinity => NegInfinity
  end.

(** [x / y]; a finite number divided by zero is an infinity of its sign. *)
Definition number_div (x y : number) : number :=
  match x, y with
  | Finite a, Finite b =>
      if Qeq_bool b 0%Q then scale_infinity true a else Finite (a / b)%Q
  | NaN, _ | _, NaN => NaN
  | Finite _, _ => Finite 0%Q
  | PosInfinity, Finite b => if Qltb b 0%Q then NegInfinity else PosInfinity
  | NegInfinity, Finite b => if Qltb b 0%Q then PosInfinity else NegInfinity
  | _, _ => NaN
  end.

(** [x >= y]. *)
Definition number_ge (x y : number) : bool :=
  match x, y with
  | Finite a, Finite b => Qle_bool b a
  | NaN, _ | _, NaN => false
  | PosInfinity, _ | _, NegInfinity => true
  | _, _ => false
  end.

Definition is_NaN (x : number) : bool :=
  match x with NaN => true | _ => false end.

(** [Math.min(x, y)] and [Math.max(x, y)]: [NaN] when an argument is. *)
Definition Math_min (x y : number) : number :=
  if is_NaN x || is_NaN y then NaN else if number_gt x y then y else x.

Definition Math_max (x y : number) : number :=
  if is_NaN x || is_NaN y then NaN else if number_gt x y then x else y.

(** [Math.round(x)]: the nearest integer, a tie going up. *)
Definition Math_round (x : number) : number :=
  match x with
  | Finite q => Finite (inject_Z (Qfloor (q + (1 # 2))%Q))
  | _ => x
  end.

Notation "x >? y" := (number_gt x y) (at level 70, no associativity) : number_scope.
Notation "x <? y" := (number_lt x y) (at level 70, no associativity) : number_scope.
Notation "x >=? y" := (number_ge x y) (at level 70, no associativity) : number_scope.
Notation "x + y" := (number_add x y) : number_scope.
Notation "x * y" := (number_mul x y) : number_scope.
Notation "x / y" := (number_div x y) : number_scope.

(** ** The heuristic: [calculateRiskFallback] (server.js, section 6) *)

Section Heuristic.
#[local] Open Scope Q_scope.
#[local] Open Scope number_scope.

(** [calculateRiskFallback] is written below in three parts: [bucketRisk],
    the value of [risk] after the three contribution blocks; [combinedRisk],
    the test of the last [if]; and the function itself, which applies the
    multiplier, rounds and clamps. *)
Definition bucketRisk (rainfall waterLevel soilMoisture : number) : number :=
  let risk : number := 0 in
  (* Rainfall contribution (max 45 points) *)
  let risk :=
    if rainfall >? 50 then risk + 45
    else if rainfall >? 30 then risk + 38
    else if rainfall >? 20 then risk + 28
    else if rainfall >? 10 then risk + 18
    else if rainfall >? 5 then risk + 10
    else risk + rainfall in
  (* Water level contribution (max 35 points) *)
  let risk :=
    if waterLevel >? 5 then risk + 35
    else if waterLevel >? 4 then risk + 28
    else if waterLevel >? 3 then risk + 20
    else if waterLevel >? 2.5 then risk + 12
    else if waterLevel >? 2 then risk + 5
    else risk in
  (* Soil moisture contribution (max 20 points) *)
  let risk :=
    if soilMoisture >? 0.9 then risk + 20
    else if soilMoisture >? 0.8 then risk + 16
    else if soilMoisture >? 0.7 then risk + 12
    else if soilMoisture >? 0.6 then risk + 8
    else if soilMoisture >? 0.5 then risk + 4
    else risk in
  risk.

(** The test guarding the combined risk multiplier. *)
Definition combinedRisk (rainfall waterLevel soilMoisture : number) : bool :=
  (rainfall >? 20) && (waterLevel >? 3) && (soilMoisture >? 0.7).

Definition calculateRiskFallback
    (rainfall waterLevel soilMoisture : number) : number :=
  let risk := bucketRisk rainfall waterLevel soilMoisture in
  (* Combined risk multiplier *)
  let risk :=
    if combinedRisk rainfall waterLevel soilMoisture
    then Math_min (risk * 1.3) 100
    else risk in
  Math_min (Math_round risk) 100.

(** [riskPercent < 30 ? 'low' : riskPercent < 70 ? 'medium' : 'high']
    (the scheduled cycle, section 9). *)
Definition riskLevelOf (riskPercent : number) : string :=
  if riskPercent <? 30 then "low"%string
  else if riskPercent <? 70 then "medium"%string
  else "high"%string.

(** The clamp at the end of the model path of [predictFloodRisk]:
    [Math.round(output * 100)], then [Math.max(0, Math.min(riskPercent, 100))]. *)
Definition modelRiskPercent (output : number) : number :=
  let riskPercent := Math_round (output * 100) in
  Math_max 0 (Math_min riskPercent 100).

End Heuristic.

(** ** The heuristic on binary64 floats

    The same function over the IEEE-754 binary64 numbers of JavaScript,
    with the rounding of every addition and multiplication. *)

Module Binary64.

#[local] Open Scope float_scope.

Definition gt (x y : float) : bool := PrimFloat.ltb y x.

Definition lt (x y : float) : bool := PrimFloat.ltb x y.

Definition Math_min (x y : float) : float :=
  if is_nan x || is_nan y then nan else if gt x y then y else x.

(** The float of an integer below 2^53 in absolute value. *)
Definition float_of_Z (n : Z) : float :=
  if (n <? 0)%Z then - of_uint63 (Uint63.of_Z (- n)) else of_uint63 (Uint63.of_Z n).

(** [Math.round(x)]: a float [m * 2^e] with [0 <= e] is an integer already;
    otherwise the result is [floor (x + 1/2)], computed exactly (a zero
    result is always the positive zero). *)
Definition Math_round (x : float) : float :=
  match Prim2SF x with
  | S754_finite s m e =>
      if (0 <=? e)%Z then x
      else
        let twice := ((if s then Z.neg m else Z.pos m) * 2)%Z in
        float_of_Z ((twice + 2 ^ (- e)) / 2 ^ (1 - e))%Z
  | _ => x
  end.

Definition bucketRisk (rainfall waterLevel soilMoisture : float) : float :=
  let risk := 0 in
  let risk :=
    if gt rainfall 50 then risk + 45
    else if gt rainfall 30 then risk + 38
    else if gt rainfall 20 then risk + 28
    else if gt rainfall 10 then risk + 18
    else if gt rainfall 5 then risk + 10
    else risk + rainfall in
  let risk :=
    if gt waterLevel 5 then risk + 35
    else if gt waterLevel 4 then risk + 28
    else if gt waterLevel 3 then risk + 20
    else if gt waterLevel 2.5 then risk + 12
    else if gt waterLevel 2 then risk + 5
    else risk in
  let risk :=
    if gt soilMoisture 0.9 then risk + 20
    else if gt soilMoisture 0.8 then risk + 16
    else if gt soilMoisture 0.7 then risk + 12
    else if gt soilMoisture 0.6 then risk + 8
    else if gt soilMoisture 0.5 then risk + 4
    else risk in
  risk.

Definition combinedRisk (rainfall waterLevel soilMoisture : float) : bool :=
  gt rainfall 20 && gt waterLevel 3 && gt soilMoisture 0.7.

Definition calculateRiskFallback
    (rainfall waterLevel soilMoisture : float) : float :=
  let risk := bucketRisk rainfall waterLevel soilMoisture in
  let risk :=
    if combinedRisk rainfall waterLevel soilMoisture
    then Math_min (risk * 1.3) 100
    else risk in
  Math_min (Math_round risk) 100.

Definition riskLevelOf (riskPercent : float) : string :=
  if lt riskPercent 30 then "low"%string
  else if lt riskPercent 70 then "medium"%string
  else "high"%string.

End Binary64.

(** ** Values, exceptions and property reads *)

(** What a [throw] carries: an [Error] object and its message. *)
Inductive JsError : Type :=
| TypeError (message : string)
| Error (message : string).

Inductive Completion (A : Type) : Type :=
| Normal (a : A)
| Throw (e : JsError).

Arguments Normal {A} a.
Arguments Throw {A} e.

(** The values a response body can hold once axios has decoded it, and the
    built-in methods they inherit. *)
Inductive JsValue : Type :=
| JsUndefined
| JsNull
| JsBoolean (b : bool)
| JsNumber (x : number)
| JsString (s : string)
| JsArray (items : list JsValue)
| JsObject (fields : list (string * JsValue))
| JsFunction (name : string).

Inductive PropertyKey : Type :=
| Key (name : string)
| Index (i : nat).

Definition key_name (k : PropertyKey) : string :=
  match k with
  | Key name => name
  | Index i => NilEmpty.string_of_uint (Nat.to_uint i)
  end.

Fixpoint own_property (fields : list (string * JsValue)) (name : string)
    : option JsValue :=
  match fields with
  | [] => None
  | (k, v) :: rest => if String.eqb k name then Some v else own_property rest name
  end.

(** The methods of [Array.prototype] with the name of a field the clients
    read; no other prototype has one. *)
Definition array_method (name : string) : bool :=
  existsb (String.eqb name) ["values"; "keys"; "entries"]%string.

(** [v[k]] and [v.k], for the keys the clients read (data fields and
    indices).  Reading a property of [undefined] or [null] throws. *)
Definition get (v : JsValue) (k : PropertyKey) : Completion JsValue :=
  match v with
  | JsUndefined | JsNull =>
      Throw (TypeError "Cannot read properties of undefined or null")
  | JsObject fields =>
      Normal (default JsUndefined (own_property fields (key_name k)))
  | JsArray items =>
      match k with
      | Index i => Normal (nth i items JsUndefined)
      | Key name =>
          if String.eqb name "length"
          then Normal (JsNumber (inject_Z (Z.of_nat (length items))))
          else if array_method name then Normal (JsFunction name)
          else Normal JsUndefined
      end
  | JsString s =>
      match k with
      | Index i =>
          Normal (match String.get i s with
                  | Some c => JsString (String c EmptyString)
                  | None => JsUndefined
                  end)
      | Key name =>
          if String.eqb name "length"
          then Normal (JsNumber (inject_Z (Z.of_nat (String.length s))))
          else Normal JsUndefined
      end
  | JsBoolean _ | JsNumber _ | JsFunction _ => Normal JsUndefined
  end.

(** [v?.k] and [v?.[k]]. *)
Definition optional_get (v : JsValue) (k : PropertyKey) : Completion JsValue :=
  match v with
  | JsUndefined | JsNull => Normal JsUndefined
  | _ => get v k
  end.

(** The condition of [v ? a : b] and of [v || b]. *)
Definition truthy (v : JsValue) : bool :=
  match v with
  | JsUndefined | JsNull => false
  | JsBoolean b => b
  | JsNumber (Finite q) => negb (Qeq_bool q 0)
  | JsNumber NaN => false
  | JsNumber _ => true
  | JsString s => negb (String.eqb s "")
  | JsArray _ | JsObject _ | JsFunction _ => true
  end.

(** [v.toFixed(digits)]: only a number has the method; the receiver is
    returned (the text it renders is only logged). *)
Definition toFixed (v : JsValue) : Completion number :=
  match v with
  | JsNumber x => Normal x
  | JsUndefined | JsNull =>
      Throw (TypeError "Cannot read properties of undefined or null")
  | _ => Throw (TypeError "toFixed is not a function")
  end.

(** The conversions of the language that the clients call and this
    repository does not define: [parseFloat], and [ToNumber] on strings and
    objects. *)
Class JsBuiltins : Type := {
  parseFloat : JsValue -> number;
  StringToNumber : string -> number;
  ObjectToNumber : JsValue -> number
}.

(** The operand conversion of [*] and [/]. *)
Definition ToNumber `{JsBuiltins} (v : JsValue) : number :=
  match v with
  | JsNumber x => x
  | JsUndefined => NaN
  | JsNull => Finite 0
  | JsBoolean b => if b then Finite 1 else Finite 0
  | JsString text => StringToNumber text
  | JsArray _ | JsObject _ | JsFunction _ => ObjectToNumber v
  end.

(** ** The state of the process *)

(** A model returned by [tf.loadLayersModel]. *)
Record LayersModel : Type := { artifact : string }.

(** [model], [modelLoadAttempted] and [usingFallback] (section 6). *)
Record ModelState : Type := {
  model : option LayersModel;
  modelLoadAttempted : bool;
  usingFallback : bool
}.

Record DataSource : Type := {
  rainfallSource : string;
  waterLevelSource : string;
  soilMoistureSource : string
}.

(** A document of [floodSchema]. *)
Record FloodData : Type := {
  doc_id : nat;
  timestamp : nat;
  lat : number;
  lng : number;
  rainfall : number;
  waterLevel : number;
  soilMoisture : number;
  prediction : number;
  riskLevel : string;
  sentAlert : bool;
  dataSource : DataSource
}.

(** The message given to [admin.messaging().send]: its topic and data
    (the notification text is rendered from the same fields). *)
Record FcmMessage : Type := {
  topic : string;
  message_lat : number;
  message_lng : number;
  risk : number;
  level : string
}.

Inductive Provider : Type := OpenWeatherMap | USGS | SoilGrids.

(** The calls that leave the process, in the order they are made. *)
Inductive Event : Type :=
| HttpGet (provider : Provider)
| FsExistsSync
| LoadLayersModel
| Predict (input : list number)
| DocumentSave (id : nat)
| IoEmit (name : string) (doc : FloodData)
| FcmSend (message : FcmMessage)
| Respond (status : nat) (message : string).

(** The function given to [setTimeout] by the trigger endpoint. *)
Inductive Timeout : Type := TriggerTimeout (delay : nat).

Record World : Type := {
  engine : ModelState;
  firebaseInitialized : bool;
  (** the documents in memory, by [_id] *)
  documents : gmap nat FloodData;
  (** the [FloodData] collection of the database *)
  collection : gmap nat FloodData;
  next_id : nat;
  timers : list Timeout;
  trace : list Event
}.

Definition with_engine (f : ModelState -> ModelState) (w : World) : World :=
  {| engine := f (engine w); firebaseInitialized := firebaseInitialized w;
     documents := documents w; collection := collection w;
     next_id := next_id w; timers := timers w; trace := trace w |}.

Definition with_documents (f : gmap nat FloodData -> gmap nat FloodData)
    (w : World) : World :=
  {| engine := engine w; firebaseInitialized := firebaseInitialized w;
     documents := f (documents w); collection := collection w;
     next_id := next_id w; timers := timers w; trace := trace w |}.

Definition with_collection (f : gmap nat FloodData -> gmap nat FloodData)
    (w : World) : World :=
  {| engine := engine w; firebaseInitialized := firebaseInitialized w;
     documents := documents w; collection := f (collection w);
     next_id := next_id w; timers := timers w; trace := trace w |}.

Definition with_next_id (n : nat) (w : World) : World :=
  {| engine := engine w; firebaseInitialized := firebaseInitialized w;
     documents := documents w; collection := collection w;
     next_id := n; timers := timers w; trace := trace w |}.

Definition with_timers (f : list Timeout -> list Timeout) (w : World) : World :=
  {| engine := engine w; firebaseInitialized := firebaseInitialized w;
     documents := documents w; collection := collection w;
     next_id := next_id w; timers := f (timers w); trace := trace w |}.

Definition with_trace (f : list Event -> list Event) (w : World) : World :=
  {| engine := engine w; firebaseInitialized := firebaseInitialized w;
     documents := documents w; collection := collection w;
     next_id := next_id w; timers := timers w; trace := f (trace w) |}.

Definition set_model (m : option LayersModel) (s : ModelState) : ModelState :=
  {| model := m; modelLoadAttempted := modelLoadAttempted s;
     usingFallback := usingFallback s |}.

Definition set_modelLoadAttempted (b : bool) (s : ModelState) : ModelState :=
  {| model := model s; modelLoadAttempted := b;
     usingFallback := usingFallback s |}.

Definition set_usingFallback (b : bool) (s : ModelState) : ModelState :=
  {| model := model s; modelLoadAttempted := modelLoadAttempted s;
     usingFallback := b |}.

Definition set_sentAlert (b : bool) (d : FloodData) : FloodData :=
  {| doc_id := doc_id d; timestamp := timestamp d; lat := lat d; lng := lng d;
     rainfall := rainfall d; waterLevel := waterLevel d;
     soilMoisture := soilMoisture d; prediction := prediction d;
     riskLevel := riskLevel d; sentAlert := b; dataSource := dataSource d |}.

(** ** Computations: state and exceptions *)

Definition M (A : Type) : Type := World -> Completion A * World.

Definition ret {A} (a : A) : M A := fun w => (Normal a, w).

Definition bind {A B} (c : M A) (k : A -> M B) : M B :=
  fun w =>
    match c w with
    | (Normal a, w') => k a w'
    | (Throw e, w') => (Throw e, w')
    end.

Definition throw {A} (e : JsError) : M A := fun w => (Throw e, w).

(** [try { body } catch (err) { handler }]: what [body] did to the state
    before it threw stays done. *)
Definition try_catch {A} (body : M A) (handler : JsError -> M A) : M A :=
  fun w =>
    match body w with
    | (Normal a, w') => (Normal a, w')
    | (Throw e, w') => handler e w'
    end.

Definition lift {A} (c : Completion A) : M A := fun w => (c, w).

Definition gets {A} (f : World -> A) : M A := fun w => (Normal (f w), w).

Definition modify (f : World -> World) : M unit := fun w => (Normal tt, f w).

(** The state once a call has left the process. *)
Definition logged (e : Event) (w : World) : World :=
  with_trace (fun t => t ++ [e]) w.

Definition emit (e : Event) : M unit := modify (logged e).

Declare Scope js_scope.
Delimit Scope js_scope with js.
Bind Scope js_scope with M.

Notation "'let!' x ':=' c 'in' k" := (bind c (fun x => k))
  (at level 10, x name, c at level 100, k at level 200) : js_scope.
Notation "c ;; k" := (bind c (fun _ => k))
  (at level 100, k at level 200, right associativity) : js_scope.

(** ** The data-source clients (section 8) *)

Record Reading : Type := { value : number; source : string }.

(** What [await axios.get(url, { timeout })] comes to: the promise rejects
    (time-out, network error, a status outside 2xx) or resolves with a
    response, of which the clients read [res.data]. *)
Inductive AxiosOutcome : Type :=
| Rejected (err : JsError)
| Resolved (data : JsValue).

Section Clients.
Context `{JsBuiltins}.
#[local] Open Scope Q_scope.
#[local] Open Scope string_scope.
#[local] Open Scope js_scope.

Definition axios_get (provider : Provider) (outcome : AxiosOutcome) : M JsValue :=
  emit (HttpGet provider) ;;
  match outcome with
  | Rejected err => throw err
  | Resolved data => ret data
  end.

Definition fetchRainfallData (response : AxiosOutcome) (lat lng : number)
    : M Reading :=
  try_catch
    (let! data := axios_get OpenWeatherMap response in
     let! list := lift (get data (Key "list")) in
     let! firstForecast := lift (get list (Index 0)) in
     let! rain := lift (get firstForecast (Key "rain")) in
     let! rain3h := lift (optional_get rain (Key "3h")) in
     let rainfall := if truthy rain3h then rain3h else JsNumber 0 in
     let! pop := lift (get firstForecast (Key "pop")) in
     let! _ := lift (toFixed (JsNumber (ToNumber pop * 100))) in
     let! rainfall := lift (toFixed rainfall) in
     ret {| value := rainfall; source := "OpenWeatherMap" |})
    (fun err => ret {| value := 0; source := "fallback" |}).

Definition fetchWaterLevel (response : AxiosOutcome) : M Reading :=
  try_catch
    (let! data := axios_get USGS response in
     let! v := lift (get data (Key "value")) in
     let! v := lift (optional_get v (Key "timeSeries")) in
     let! v := lift (optional_get v (Index 0)) in
     let! v := lift (optional_get v (Key "values")) in
     let! v := lift (optional_get v (Index 0)) in
     let! v := lift (optional_get v (Key "value")) in
     let! v := lift (optional_get v (Index 0)) in
     let! val := lift (optional_get v (Key "value")) in
     let waterLevel := if truthy val then parseFloat val else Finite 2.1 in
     let! waterLevel := lift (toFixed (JsNumber waterLevel)) in
     ret {| value := waterLevel; source := "USGS" |})
    (fun err => ret {| value := 2.1; source := "fallback" |}).

Definition fetchSoilMoisture (response : AxiosOutcome) (lat lng : number)
    : M Reading :=
  try_catch
    (let! data := axios_get SoilGrids response in
     let! v := lift (get data (Key "properties")) in
     let! v := lift (get v (Key "layers")) in
     let! v := lift (get v (Index 0)) in
     let! v := lift (get v (Key "depths")) in
     let! v := lift (get v (Index 0)) in
     let! v := lift (get v (Key "values")) in
     let! mean := lift (get v (Key "mean")) in
     let moisture := if truthy mean then (ToNumber mean / 100)%number else Finite 0.5 in
     let! _ := lift (toFixed (JsNumber (moisture * 100))) in
     ret {| value := moisture; source := "SoilGrids" |})
    (fun err => ret {| value := 0.5; source := "fallback" |}).

End Clients.

(** ** The risk engine (section 6) *)

(** What TensorFlow and the file system answer during one call of
    [predictFloodRisk]. *)
Record EngineEnv : Type := {
  (** in [loadModel]: [require('@tensorflow/tfjs')], its CPU backend and
      [tf.ready()] succeed; failing that, [require('@tensorflow/tfjs-node')] *)
  load_tfjs : bool;
  load_tfjs_node : bool;
  (** [fs.existsSync(modelPath)] *)
  model_file_exists : bool;
  (** [await tf.loadLayersModel(loadHandler)] *)
  loadLayersModel : Completion LayersModel;
  (** the same two [require]s in [predictFloodRisk] *)
  predict_tfjs : bool;
  predict_tfjs_node : bool;
  (** [tf.tensor2d], [loadedModel.predict], [prediction.dataSync()[0]] and
      [tf.dispose]: the output, or what one of them throws *)
  inference : Completion number
}.

Section Engine.
#[local] Open Scope Q_scope.
#[local] Open Scope string_scope.
#[local] Open Scope js_scope.

Definition loadModel (env : EngineEnv) : M (option LayersModel) :=
  let! current := gets (fun w => model (engine w)) in
  match current with
  | Some m => ret (Some m)
  | None =>
      let! attempted := gets (fun w => modelLoadAttempted (engine w)) in
      if attempted then ret None
      else
        modify (with_engine (set_modelLoadAttempted true)) ;;
        try_catch
          ((if load_tfjs env then ret tt
            else if load_tfjs_node env then ret tt
            else throw (Error "TensorFlow.js not installed")) ;;
           emit FsExistsSync ;;
           if negb (model_file_exists env) then
             modify (with_engine (set_usingFallback true)) ;;
             ret None
           else
             emit LoadLayersModel ;;
             let! m := lift (loadLayersModel env) in
             modify (with_engine (set_model (Some m))) ;;
             ret (Some m))
          (fun err =>
             modify (with_engine (set_usingFallback true)) ;;
             ret None)
  end.

Definition predictFloodRisk (env : EngineEnv)
    (rainfall waterLevel soilMoisture : number) : M number :=
  let! loadedModel := loadModel env in
  match loadedModel with
  | None => ret (calculateRiskFallback rainfall waterLevel soilMoisture)
  | Some loadedModel =>
      try_catch
        (if predict_tfjs env || predict_tfjs_node env then
           (* Normalize inputs *)
           let input : list number :=
             [(rainfall / 50)%number; soilMoisture; (waterLevel / 6)%number;
              Finite 0.05; Finite 0.05] in
           emit (Predict input) ;;
           let! output := lift (inference env) in
           ret (modelRiskPercent output)
         else
           ret (calculateRiskFallback rainfall waterLevel soilMoisture))
        (fun err => ret (calculateRiskFallback rainfall waterLevel soilMoisture))
  end.

End Engine.

(** ** The alert (section 7) *)

Record AlertEnv : Type := {
  (** [await admin.messaging().send(message)] *)
  fcm_send : Completion unit;
  (** [await data.save()] *)
  alert_save : Completion unit
}.

Section Alert.
#[local] Open Scope string_scope.
#[local] Open Scope js_scope.

(** [await doc.save()] on the document in memory with this [_id]. *)
Definition document_save (outcome : Completion unit) (id : nat) : M unit :=
  emit (DocumentSave id) ;;
  lift outcome ;;
  let! docs := gets documents in
  match docs !! id with
  | Some d => modify (with_collection (insert id d))
  | None => ret tt
  end.

(** [const message = { notification, topic, data }]. *)
Definition alert_message (data : FloodData) : FcmMessage :=
  {| topic := "flood_alerts";
     message_lat := lat data;
     message_lng := lng data;
     risk := prediction data;
     level := riskLevel data |}.

Definition sendFloodAlert (env : AlertEnv) (id : nat) : M unit :=
  let! docs := gets documents in
  match docs !! id with
  | None => throw (TypeError "Cannot read properties of undefined or null")
  | Some data =>
      let! initialized := gets firebaseInitialized in
      if negb initialized || sentAlert data then ret tt
      else
        let message := alert_message data in
        try_catch
          (emit (FcmSend message) ;;
           lift (fcm_send env) ;;
           modify (with_documents (insert id (set_sentAlert true data))) ;;
           document_save (alert_save env) id)
          (fun err => ret tt)
  end.

End Alert.

(** ** The ingestion job and the trigger endpoint (sections 9 and 11) *)

Record CycleEnv : Type := {
  rainfall_response : AxiosOutcome;
  waterLevel_response : AxiosOutcome;
  soilMoisture_response : AxiosOutcome;
  engine_env : EngineEnv;
  (** [Date.now()] when the document is built *)
  now : nat;
  (** [await newData.save()] *)
  ingestion_save : Completion unit;
  alert_env : AlertEnv
}.

(** The two functions of the source given to [cron.schedule]. *)
Inductive Job : Type :=
| IngestionJob
| RunOnceJob.

Record ScheduledTask : Type := {
  expression : string;
  job : Job;
  scheduled : bool
}.

Section Scheduling.
Context `{JsBuiltins}.
#[local] Open Scope Q_scope.
#[local] Open Scope string_scope.
#[local] Open Scope js_scope.

(** [new FloodData({...})]: a fresh [_id], the default [timestamp] and
    [sentAlert]. *)
Definition new_FloodData (time : nat) (lat lng rainfall waterLevel soilMoisture
    prediction : number) (riskLevel : string) (dataSource : DataSource) : M nat :=
  let! id := gets next_id in
  modify (with_next_id (S id)) ;;
  modify (with_documents (insert id
    {| doc_id := id; timestamp := time; lat := lat; lng := lng;
       rainfall := rainfall; waterLevel := waterLevel;
       soilMoisture := soilMoisture; prediction := prediction;
       riskLevel := riskLevel; sentAlert := false;
       dataSource := dataSource |})) ;;
  ret id.

(** [io.emit(name, doc.toObject())]. *)
Definition io_emit (name : string) (id : nat) : M unit :=
  let! docs := gets documents in
  match docs !! id with
  | Some d => emit (IoEmit name d)
  | None => throw (TypeError "Cannot read properties of undefined or null")
  end.

(** The function given to [cron.schedule('*/10 * * * *', ...)]. *)
Definition ingestion (env : CycleEnv) : M unit :=
  let lat : number := 6.45 in
  let lng : number := 3.39 in
  try_catch
    ((* Fetch all data sources *)
     let! rainfallData := fetchRainfallData (rainfall_response env) lat lng in
     let! waterLevelData := fetchWaterLevel (waterLevel_response env) in
     let! soilMoistureData := fetchSoilMoisture (soilMoisture_response env) lat lng in
     (* AI Prediction *)
     let! riskPercent :=
       predictFloodRisk (engine_env env) (value rainfallData)
         (value waterLevelData) (value soilMoistureData) in
     let riskLevel := riskLevelOf riskPercent in
     (* Save to DB *)
     let! newData :=
       new_FloodData (now env) lat lng (value rainfallData)
         (value waterLevelData) (value soilMoistureData) riskPercent riskLevel
         {| rainfallSource := source rainfallData;
            waterLevelSource := source waterLevelData;
            soilMoistureSource := source soilMoistureData |} in
     document_save (ingestion_save env) newData ;;
     (* Broadcast to connected clients *)
     io_emit "floodUpdate" newData ;;
     (* Send alert if medium/high risk *)
     if negb (String.eqb riskLevel "low")
     then sendFloodAlert (alert_env env) newData
     else ret tt)
    (fun err => ret tt).

Definition run_job (env : CycleEnv) (j : Job) : M unit :=
  match j with
  | IngestionJob => ingestion env
  | RunOnceJob => ret tt
  end.

(** [cron.schedule(expression, job, options)] and [task.now()], which calls
    the function of the task. *)
Definition cron_schedule (expression : string) (j : Job) (scheduled : bool)
    : ScheduledTask :=
  {| expression := expression; job := j; scheduled := scheduled |}.

Definition task_now (env : CycleEnv) (task : ScheduledTask) : M unit :=
  run_job env (job task).

(** The handler of [POST /api/trigger]. *)
Definition post_api_trigger : M unit :=
  try_catch
    (emit (Respond 200 "Data fetch triggered") ;;
     modify (with_timers (fun ts => (ts ++ [TriggerTimeout 100])%list)))
    (fun err => emit (Respond 500 (match err with TypeError m | Error m => m end))).

(** The function the handler gives to [setTimeout]. *)
Definition run_timeout (env : CycleEnv) (t : Timeout) : M unit :=
  match t with
  | TriggerTimeout _ =>
      task_now env (cron_schedule "* * * * * *" RunOnceJob false)
  end.

(** The timers that are due run, each once. *)
Fixpoint run_timeouts (env : CycleEnv) (ts : list Timeout) : M unit :=
  match ts with
  | [] => ret tt
  | t :: rest => run_timeout env t ;; run_timeouts env rest
  end.

Definition fire_timers (env : CycleEnv) : M unit :=
  let! ts := gets timers in
  modify (with_timers (fun _ => [])) ;;
  run_timeouts env ts.

(** A request to [POST /api/trigger], up to the end of its time-out. *)
Definition manual_trigger (env : CycleEnv) : M unit :=
  post_api_trigger ;;
  fire_timers env.

End Scheduling.

(** Conversions that answer [NaN] to everything, for the closed examples. *)
Definition NaN_builtins : JsBuiltins :=
  {| parseFloat := fun _ => NaN;
     StringToNumber := fun _ => NaN;
     ObjectToNumber := fun _ => NaN |}.

(** ** The process: its start and what happens to it *)

Definition initial_world (firebase : bool) : World :=
  {| engine := {| model := None; modelLoadAttempted := false;
                  usingFallback := false |};
     firebaseInitialized := firebase;
     documents := ∅; collection := ∅; next_id := 0;
     timers := []; trace := [] |}.

(** The scheduler calls the ingestion job, or a client posts to the trigger
    endpoint. *)
Inductive Step : Type :=
| Tick (env : CycleEnv)
| Trigger (env : CycleEnv).

Definition step `{JsBuiltins} (s : Step) (w : World) : World :=
  match s with
  | Tick env => snd (ingestion env w)
  | Trigger env => snd (manual_trigger env w)
  end.

Definition run `{JsBuiltins} (steps : list Step) (w : World) : World :=
  fold_left (fun w s => step s w) steps w.

(** Repeated calls of [sendFloodAlert] on one document. *)
Definition alerts (envs : list AlertEnv) (id : nat) (w : World) : World :=
  fold_left (fun w env => snd (sendFloodAlert env id w)) envs w.

(** The calls that load the model, and what one call of [loadModel] does
    to the model state and adds to the trace. *)
Definition is_LoadLayersModel (e : Event) : bool :=
  match e with LoadLayersModel => true | _ => false end.

Definition is_FsExistsSync (e : Event) : bool :=
  match e with FsExistsSync => true | _ => false end.

Definition is_FcmSend (e : Event) : bool :=
  match e with FcmSend _ => true | _ => false end.

Definition load_step (env : EngineEnv) (s : ModelState) : ModelState * list Event :=
  match model s with
  | Some _ => (s, [])
  | None =>
      if modelLoadAttempted s then (s, [])
      else
        let s := set_modelLoadAttempted true s in
        if load_tfjs env || load_tfjs_node env then
          if negb (model_file_exists env)
          then (set_usingFallback true s, [FsExistsSync])
          else
            match loadLayersModel env with
            | Normal m => (set_model (Some m) s, [FsExistsSync; LoadLayersModel])
            | Throw _ => (set_usingFallback true s, [FsExistsSync; LoadLayersModel])
            end
        else (set_usingFallback true s, [])
  end.

Definition after_load (env : EngineEnv) (w : World) : World :=
  with_trace (fun t => t ++ snd (load_step env (engine w)))
    (with_engine (fun s => fst (load_step env s)) w).

(** ** Relations between states, for the proofs *)

(** Every run of [c] takes a state to one related to it by [R]. *)
Definition preserves (R : relation World) {A} (c : M A) : Prop :=
  forall w, R w (snd (c w)).

(** The same model state and the same loading calls in the trace. *)
Definition same_engine (w w' : World) : Prop :=
  engine w' = engine w /\
  List.filter is_LoadLayersModel (trace w')
  = List.filter is_LoadLayersModel (trace w) /\
  List.filter is_FsExistsSync (trace w') = List.filter is_FsExistsSync (trace w).

(** The trace of [w'] continues the trace of [w]. *)
Definition extends (w w' : World) : Prop := exists t, trace w' = trace w ++ t.

(** The number of messages given to Firebase so far. *)
Definition sends (w : World) : nat := length (List.filter is_FcmSend (trace w)).

Definition same_sends (w w' : World) : Prop := sends w' = sends w.

Definition sends_once {A} (c : M A) : Prop :=
  forall w, (sends (snd (c w)) <= sends w + 1)%nat.

(** The document [id] of a store has [sentAlert] set. *)
Definition sent_in (docs : gmap nat FloodData) (id : nat) : Prop :=
  exists d, docs !! id = Some d /\ sentAlert d = true.

(** Documents in memory have an [_id] below the next one, and a document
    saved with [sentAlert] set has it set in memory. *)
Definition store_invariant (w : World) : Prop :=
  (forall id, is_Some (documents w !! id) -> (id < next_id w)%nat) /\
  (forall id, sent_in (collection w) id -> sent_in (documents w) id).

(** From [w] to [w'] no document loses its [sentAlert], in memory or in
    the collection. *)
Definition keeps_alerts (w w' : World) : Prop :=
  store_invariant w ->
  store_invariant w' /\
  (forall id, sent_in (documents w) id -> sent_in (documents w') id) /\
  (forall id, sent_in (collection w) id -> sent_in (collection w') id).

(** The invariant of the model state along a run. *)
Definition engine_invariant (w : World) : Prop :=
  (usingFallback (engine w) = true ->
   modelLoadAttempted (engine w) = true /\ model (engine w) = None) /\
  (modelLoadAttempted (engine w) = false ->
   model (engine w) = None /\
   List.filter is_LoadLayersModel (trace w) = [] /\
   List.filter is_FsExistsSync (trace w) = []) /\
  (length (List.filter is_LoadLayersModel (trace w)) <= 1)%nat /\
  (length (List.filter is_FsExistsSync (trace w)) <= 1)%nat.

(** A computation that leaves the state alone and, when it returns, returns
    a reading that satisfies [P]. *)
Definition reads (P : Reading -> Prop) (c : M Reading) : Prop :=
  forall w, exists r : Completion Reading,
    c w = (r, w) /\ forall x, r = Normal x -> P x.

(** ** The contributions of the heuristic, named for the proofs *)

Section Contributions.
#[local] Open Scope Q_scope.
#[local] Open Scope number_scope.

Definition rainfallPoints (rainfall : Q) : Q :=
  if rainfall >? 50 then 45
  else if rainfall >? 30 then 38
  else if rainfall >? 20 then 28
  else if rainfall >? 10 then 18
  else if rainfall >? 5 then 10
  else rainfall.

Definition waterLevelPoints (waterLevel : number) : Q :=
  if waterLevel >? 5 then 35
  else if waterLevel >? 4 then 28
  else if waterLevel >? 3 then 20
  else if waterLevel >? 2.5 then 12
  else if waterLevel >? 2 then 5
  else 0.

Definition soilMoisturePoints (soilMoisture : number) : Q :=
  if soilMoisture >? 0.9 then 20
  else if soilMoisture >? 0.8 then 16
  else if soilMoisture >? 0.7 then 12
  else if soilMoisture >? 0.6 then 8
  else if soilMoisture >? 0.5 then 4
  else 0.

(** The float inputs and the exact inputs answer every test of the
    heuristic alike. *)
Definition same_tests (f : float) (x : number) (thresholds : list (float * Q))
    : Prop :=
  Forall (fun c => Binary64.gt f (fst c) = (x >? Finite (snd c))) thresholds.

Definition same_buckets (fr fw fs : float) (r w s : number) : Prop :=
  same_tests fr r
    [(50%float, 50%Q); (30%float, 30%Q); (20%float, 20%Q); (10%float, 10%Q); (5%float, 5%Q)] /\
  same_tests fw w
    [(5%float, 5%Q); (4%float, 4%Q); (3%float, 3%Q); (2.5%float, 2.5%Q); (2%float, 2%Q)] /\
  same_tests fs s
    [(0.9%float, 0.9%Q); (0.8%float, 0.8%Q); (0.7%float, 0.7%Q); (0.6%float, 0.6%Q); (0.5%float, 0.5%Q)].

(** The value of [risk] that is rounded, and the score, for a finite
    rainfall. *)
Definition finalRisk (rainfall : Q) (waterLevel soilMoisture : number) : Q :=
  let sum :=
    (rainfallPoints rainfall + waterLevelPoints waterLevel
     + soilMoisturePoints soilMoisture)%Q in
  if combinedRisk rainfall waterLevel soilMoisture
  then (if Qltb 100 (sum * 1.3) then 100 else sum * 1.3)%Q
  else sum.

Definition score (rainfall : Q) (waterLevel soilMoisture : number) : Z :=
  Z.min (Qfloor (finalRisk rainfall waterLevel soilMoisture + (1 # 2))%Q) 100.

End Contributions.

(** ** The mode reported to clients

    [usingFallback ? 'fallback' : 'ai-model'], the [modelStatus] of
    [GET /api/stats] (section 11); the ingestion job logs the same test. *)
Definition modelStatus (w : World) : string :=
  if usingFallback (engine w) then "fallback"%string else "ai-model"%string.

(** The model state is undecided before the first load and decided ever
    after. *)
Definition mode_invariant (s : ModelState) : Prop :=
  if modelLoadAttempted s
  then usingFallback s = true <-> model s = None
  else usingFallback s = false /\ model s = None.

Definition is_Tick (s : Step) : bool :=
  match s with Tick _ => true | Trigger _ => false end.

(** ** The bodies of the providers, as the clients read them *)





(** ** One run of the ingestion job, for the proofs *)

(** The document the job builds from its three readings and the score. *)
Definition cycle_document (env : CycleEnv) (id : nat)
    (rainfallData waterLevelData soilMoistureData : Reading)
    (riskPercent : number) : FloodData :=
  {| doc_id := id; timestamp := now env;
     lat := Finite 6.45; lng := Finite 3.39;
     rainfall := value rainfallData;
     waterLevel := value waterLevelData;
     soilMoisture := value soilMoistureData;
     prediction := riskPercent;
     riskLevel := riskLevelOf riskPercent;
     sentAlert := false;
     dataSource := {| rainfallSource := source rainfallData;
                      waterLevelSource := source waterLevelData;
                      soilMoistureSource := source soilMoistureData |} |}.

(** The same documents, collection, next [_id] and Firebase flag. *)
Definition same_store (w w' : World) : Prop :=
  documents w' = documents w /\ collection w' = collection w /\
  next_id w' = next_id w /\ firebaseInitialized w' = firebaseInitialized w.

Definition is_IoEmit (e : Event) : bool :=
  match e with IoEmit _ _ => true | _ => false end.

(** The state a run of the job on [w] leaves, given the state [scored]
    after the requests and the prediction. *)
Definition after_cycle (env : CycleEnv) (scored : World) (d : FloodData) : World :=
  let id := doc_id d in
  let created :=
    logged (DocumentSave id)
      (with_documents (insert id d) (with_next_id (S id) scored)) in
  match ingestion_save env with
  | Throw _ => created
  | Normal _ =>
      let broadcast :=
        logged (IoEmit "floodUpdate" d) (with_collection (insert id d) created) in
      if negb (String.eqb (riskLevel d) "low")
      then snd (sendFloodAlert (alert_env env) id broadcast)
      else broadcast
  end.

(** What leaves the process: the broadcasts to the socket clients and the
    messages given to Firebase, in the order they left. *)
Definition broadcasts (w : World) : list Event :=
  List.filter is_IoEmit (trace w).

Definition messages (w : World) : list Event :=
  List.filter is_FcmSend (trace w).

(** A computation whose result does not depend on the state it runs in. *)
Definition stateless {A} (c : M A) : Prop :=
  forall w w', fst (c w) = fst (c w').

(** ** Start-up (section 13) *)

(** The callback of [server.listen]: [loadModel().then(...)], whose
    continuation only logs the mode. *)
Definition on_listening (env : EngineEnv) : M unit :=
  (let! _ := loadModel env in
   ret tt)%js.

(** ** Firebase Admin at start-up (section 5) *)

Record FirebaseEnv : Type := {
  (** [process.env.FIREBASE_CONFIG_BASE64] and [process.env.FIREBASE_CONFIG]:
      a text, or [undefined] *)
  FIREBASE_CONFIG_BASE64 : option string;
  FIREBASE_CONFIG : option string;
  (** [Buffer.from(text, 'base64').toString('utf8')] *)
  base64_decode : string -> string;
  JSON_parse : string -> Completion JsValue;
  (** [require('./firebase-service-account.json')] *)
  service_account_file : Completion JsValue;
  (** [admin.initializeApp({ credential: admin.credential.cert(serviceAccount) })] *)
  initializeApp : JsValue -> Completion unit
}.

Definition env_value (v : option string) : JsValue :=
  match v with Some text => JsString text | None => JsUndefined end.

Definition env_text (v : option string) : string :=
  match v with Some text => text | None => EmptyString end.

(** The value of [firebaseInitialized] once the [try] block of section 5
    is over. *)
Definition firebase_init (env : FirebaseEnv) : bool :=
  let serviceAccount : Completion JsValue :=
    if truthy (env_value (FIREBASE_CONFIG_BASE64 env)) then
      (* Method B: Base64 encoded *)
      let decoded := base64_decode env (env_text (FIREBASE_CONFIG_BASE64 env)) in
      JSON_parse env decoded
    else if truthy (env_value (FIREBASE_CONFIG env)) then
      (* Method A: Direct JSON *)
      JSON_parse env (env_text (FIREBASE_CONFIG env))
    else
      (* Development: Load from file *)
      service_account_file env in
  match serviceAccount with
  | Throw _ => false
  | Normal serviceAccount =>
      match initializeApp env serviceAccount with
      | Throw _ => false
      | Normal _ => true
      end
  end.

(** ** The counts of [GET /api/stats] (section 11) *)

(** [await FloodData.countDocuments(filter)]. *)
Definition countDocuments (matches : FloodData -> bool) (w : World) : nat :=
  length (List.filter matches (map snd (map_to_list (collection w)))).

Module ApiStats.


Definition highRisk : World -> nat :=
  countDocuments (fun d => String.eqb (riskLevel d) "high").

Definition mediumRisk : World -> nat :=
  countDocuments (fun d => String.eqb (riskLevel d) "medium").

Definition lowRisk : World -> nat :=
  countDocuments (fun d => String.eqb (riskLevel d) "low").

End ApiStats.


(** ** The log of the dashboard (section 12, the script of the page)

    The children of [log], first child first.  [render] stands for the
    statements of [addLogEntry] that build the [div] of one record; they
    throw on a record without a text for [riskLevel] or a number for a
    reading. *)

Module Dashboard.
Section Log.
Context {Doc Entry : Type} (render : Doc -> Completion Entry).

Definition addLogEntry (d : Doc) (log : list Entry)
    : Completion unit * list Entry :=
  match render d with
  | Throw err => (Throw err, log)
  | Normal entry =>
      (* log.insertBefore(entry, log.firstChild) *)
      let log := entry :: log in
      (Normal tt,
       if (20 <? length log)%nat then removelast log else log)
  end.

(** [records.forEach(d => addLogEntry(d))]. *)
Fixpoint forEach (records : list Doc) (log : list Entry)
    : Completion unit * list Entry :=
  match records with
  | [] => (Normal tt, log)
  | d :: records =>
      match addLogEntry d log with
      | (Normal _, log) => forEach records log
      | (Throw err, log) => (Throw err, log)
      end
  end.

(** [socket.on('historical', ...)]: the log is emptied first. *)
Definition on_historical (records : list Doc) (log : list Entry)
    : Completion unit * list Entry :=
  let log : list Entry := [] in
  forEach (rev records) log.

End Log.
End Dashboard.

(** ** The synthetic examples of the training script (train-model.js) *)

Module TrainModel.
Section Examples.
#[local] Open Scope Q_scope.
#[local] Open Scope number_scope.

(** The label of one example: the body of the loop, from [let risk = 0]
    to [risk = Math.min(risk, 1.0)]. *)
Definition label (rainfall soilMoisture waterLevel : number) : number :=
  let risk : number := 0 in
  (* Rainfall contribution *)
  let risk :=
    if rainfall >? 40 then risk + 0.5
    else if rainfall >? 25 then risk + 0.35
    else if rainfall >? 15 then risk + 0.2
    else risk + rainfall / 100 in
  (* Water level contribution *)
  let risk :=
    if waterLevel >? 4.5 then risk + 0.4
    else if waterLevel >? 3.5 then risk + 0.25
    else if waterLevel >? 2.5 then risk + 0.15
    else risk + waterLevel / 30 in
  (* Soil moisture contribution *)
  let risk :=
    if soilMoisture >? 0.85 then risk + 0.25
    else if soilMoisture >? 0.7 then risk + 0.15
    else risk + soilMoisture / 10 in
  (* Combined effect multiplier *)
  let risk :=
    if (rainfall >? 30) && (waterLevel >? 4) && (soilMoisture >? 0.8)
    then Math_min (risk * 1.4) 1.0
    else risk in
  Math_min risk 1.0.

(** The row pushed to [trainingData]; [dummy1] and [dummy2] are the two
    [Math.random() * 0.1]. *)
Definition features (rainfall soilMoisture waterLevel dummy1 dummy2 : number)
    : list number :=
  [rainfall / 50; soilMoisture; waterLevel / 6; dummy1; dummy2].

End Examples.
End TrainModel.

(** ** The summary of the test script (test-prediction.js) *)

Module TestPrediction.
Section Summary.
#[local] Open Scope Q_scope.
#[local] Open Scope number_scope.

(** [results.filter(r => r.risk < 30).length] and the two counts after it,
    on the [risk] of each result. *)
Definition lowRisk (results : list number) : nat :=
  length (List.filter (fun risk => risk <? 30) results).

Definition mediumRisk (results : list number) : nat :=
  length (List.filter (fun risk => (risk >=? 30) && (risk <? 70)) results).

Definition highRisk (results : list number) : nat :=
  length (List.filter (fun risk => risk >=? 70) results).

End Summary.
End TestPrediction.

(** ** Environments of the examples *)

Definition no_tensorflow : EngineEnv :=
  {| load_tfjs := false; load_tfjs_node := false; model_file_exists := false;
     loadLayersModel := Throw (Error "TensorFlow.js not installed");
     predict_tfjs := false; predict_tfjs_node := false;
     inference := Throw (Error "TensorFlow.js not installed") |}.

(** No provider answers; [save] is what saving the record comes to. *)
Definition unreachable (save : Completion unit) : CycleEnv :=
  {| rainfall_response := Rejected (Error "Network Error");
     waterLevel_response := Rejected (Error "Network Error");
     soilMoisture_response := Rejected (Error "Network Error");
     engine_env := no_tensorflow;
     now := 0;
     ingestion_save := save;
     alert_env := {| fcm_send := Normal tt; alert_save := Normal tt |} |}.

(** * Properties *)

(** ** Comparisons of rationals *)

Lemma Qltb_true (a b : Q) : Qltb a b = true <-> (a < b)%Q.
Proof.
  unfold Qltb. rewrite negb_true_iff.
  destruct (Qle_bool b a) eqn:E.
  - apply Qle_bool_iff in E. split; [discriminate | intros L; lra].
  - split; [intros _ | reflexivity].
    destruct (Qlt_le_dec a b) as [L | L]; [exact L |].
    apply Qle_bool_iff in L. congruence.
Qed.

Lemma Qltb_false (a b : Q) : Qltb a b = false <-> (b <= a)%Q.
Proof.
  unfold Qltb. rewrite negb_false_iff. apply Qle_bool_iff.
Qed.

Lemma number_gt_Finite (a b : Q) : number_gt (Finite a) (Finite b) = Qltb b a.
Proof. reflexivity. Qed.

(** Every test of the goal and of the context on two rationals becomes an
    inequality. *)
Ltac tests_to_Q :=
  repeat match goal with
  | H : context [number_gt (Finite _) (Finite _)] |- _ =>
      rewrite number_gt_Finite in H
  | |- context [number_gt (Finite _) (Finite _)] => rewrite number_gt_Finite
  | H : Qltb _ _ = true |- _ => apply Qltb_true in H
  | H : Qltb _ _ = false |- _ => apply Qltb_false in H
  end.

Ltac split_tests :=
  repeat match goal with
  | |- context [if ?b then _ else _] => destruct b eqn:?
  end.

Lemma Math_min_Finite (a b : Q) :
  Math_min (Finite a) (Finite b) = Finite (if Qltb b a then b else a).
Proof. unfold Math_min. simpl. destruct (Qltb b a); reflexivity. Qed.


(** ** The contributions *)


Lemma rainfallPoints_upper (a : Q) : (rainfallPoints a <= 45)%Q.
Proof. unfold rainfallPoints. split_tests; tests_to_Q; lra. Qed.



Lemma waterLevelPoints_bounds (w : number) : (0 <= waterLevelPoints w <= 35)%Q.
Proof. unfold waterLevelPoints. split_tests; lra. Qed.

Lemma soilMoisturePoints_bounds (s : number) : (0 <= soilMoisturePoints s <= 20)%Q.
Proof. unfold soilMoisturePoints. split_tests; lra. Qed.



(** ** The heuristic as a score *)

Lemma bucketRisk_Finite (r : Q) (w s : number) :
  exists q : Q,
    bucketRisk r w s = Finite q /\
    (q == rainfallPoints r + waterLevelPoints w + soilMoisturePoints s)%Q.
Proof.
  unfold bucketRisk, rainfallPoints, waterLevelPoints, soilMoisturePoints.
  split_tests; (eexists; split; [reflexivity | ring]).
Qed.

Lemma combinedRisk_Finite (r w s : Q) :
  combinedRisk r w s = true <-> (20 < r /\ 3 < w /\ 7 # 10 < s)%Q.
Proof.
  unfold combinedRisk. rewrite !andb_true_iff, !number_gt_Finite, !Qltb_true.
  change (0.7)%Q with (7 # 10). tauto.
Qed.

Lemma Math_round_clamp (q q' : Q) :
  (q == q')%Q ->
  Math_min (Math_round (Finite q)) (Finite 100)
  = Finite (inject_Z (Z.min (Qfloor (q' + (1 # 2))%Q) 100)).
Proof.
  intros E. unfold Math_round. rewrite Math_min_Finite.
  assert (F : Qfloor (q + (1 # 2)) = Qfloor (q' + (1 # 2))) by (rewrite E; reflexivity).
  rewrite F. set (n := Qfloor (q' + (1 # 2))).
  destruct (Qltb 100 (inject_Z n)) eqn:T.
  - apply Qltb_true in T. change (100%Q) with (inject_Z 100) in T.
    rewrite <- Zlt_Qlt in T. rewrite Z.min_r by lia. reflexivity.
  - apply Qltb_false in T. change (100%Q) with (inject_Z 100) in T.
    rewrite <- Zle_Qle in T. rewrite Z.min_l by lia. reflexivity.
Qed.

Lemma calculateRiskFallback_score (r : Q) (w s : number) :
  calculateRiskFallback r w s = Finite (inject_Z (score r w s)).
Proof.
  unfold calculateRiskFallback, score, finalRisk.
  destruct (bucketRisk_Finite r w s) as (q & -> & E).
  destruct (combinedRisk r w s).
  - cbn [number_mul]. rewrite Math_min_Finite.
    apply Math_round_clamp.
    assert (T : Qltb 100 (q * 1.3)
                = Qltb 100 ((rainfallPoints r + waterLevelPoints w
                             + soilMoisturePoints s) * 1.3)).
    { destruct (Qltb 100 (q * 1.3)) eqn:A; symmetry;
        [apply Qltb_true; apply Qltb_true in A
        | apply Qltb_false; apply Qltb_false in A]; rewrite <- E; exact A. }
    rewrite <- T. destruct (Qltb 100 (q * 1.3)); [reflexivity | rewrite E; reflexivity].
  - apply Math_round_clamp. exact E.
Qed.

Lemma finalRisk_upper (r : Q) (w s : number) : (finalRisk r w s <= 100)%Q.
Proof.
  unfold finalRisk.
  pose proof (rainfallPoints_upper r).
  pose proof (waterLevelPoints_bounds w).
  pose proof (soilMoisturePoints_bounds s).
  split_tests; tests_to_Q; lra.
Qed.













(** ** The heuristic: scenarios, range, multiplier, monotonicity *)

Section HeuristicProperties.
#[local] Open Scope Q_scope.
#[local] Open Scope number_scope.

(** In binary64 the score is the one of exact arithmetic wherever the
    rainfall is above 5, where every contribution is a constant: the
    rounding of [risk * 1.3] never changes the integer that [Math.round]
    picks. *)
Lemma binary64_agrees_above_5 (fr fw fs : float) (r w s : number) :
  same_buckets fr fw fs r w s -> (r >? 5) = true ->
  exists n : Z,
    calculateRiskFallback r w s = Finite (inject_Z n) /\
    Binary64.calculateRiskFallback fr fw fs = Binary64.float_of_Z n.
Proof.
  intros (R & W & S) R5. unfold same_tests in *.
  repeat match goal with
  | T : Forall _ (_ :: _) |- _ =>
      apply List.Forall_cons_iff in T; destruct T as [? T]
  | T : Forall _ [] |- _ => clear T
  end.
  cbn [fst snd] in *.
  unfold Binary64.calculateRiskFallback, Binary64.bucketRisk,
    Binary64.combinedRisk.
  repeat match goal with
  | T : Binary64.gt _ _ = _ |- _ => rewrite T; clear T
  end.
  unfold calculateRiskFallback, bucketRisk, combinedRisk. rewrite R5.
  destruct (r >? 20), (w >? 3), (s >? 0.7); cbn [andb]; split_tests;
    match goal with
    | |- exists n, ?score = _ /\ _ =>
        let v := eval vm_compute in score in
        match v with Finite (?z # 1) => exists z end
    end;
    split; vm_compute; reflexivity.
Qed.

Lemma same_buckets_scenario : same_buckets 45 4.2 0.7 45%Q 4.2%Q 0.7%Q.
Proof.
  unfold same_buckets, same_tests.
  repeat split; repeat (constructor; [vm_compute; reflexivity |]); constructor.
Qed.

(** C1, as the specification states it: the bucket sum of
    [calculateRiskFallback 45 4.2 0.7] is not 78 and neither is its score. *)
Lemma C1_sum_78_fails :
  ~ ((exists q : Q, bucketRisk 45 4.2 0.7 = Finite q /\ (q == 78)%Q) /\
     combinedRisk 45 4.2 0.7 = false /\
     (exists q : Q, calculateRiskFallback 45 4.2 0.7 = Finite q /\ (q == 78)%Q) /\
     riskLevelOf (calculateRiskFallback 45 4.2 0.7) = "high"%string).
Proof.
  intros [(q & E & Q78) _]. vm_compute in E.
  injection E as <-. vm_compute in Q78. discriminate Q78.
Qed.

(** C1 (amended): for rainfall 45, water level 4.2 and soil moisture 0.7 the
    contributions are 38 (rainfall above 30), 28 (water level above 4) and 8
    (soil moisture above 0.6 and not above 0.7), their sum is 74, the
    multiplier does not apply because 0.7 is not above 0.7, the score is 74
    and its risk level is high; the binary64 evaluation agrees. *)
Theorem C1_scenario_45_42_07 :
  (rainfallPoints 45 == 38)%Q /\
  (waterLevelPoints 4.2 == 28)%Q /\
  (soilMoisturePoints 0.7 == 8)%Q /\
  (0.7 >? 0.7) = false /\ (0.7 >? 0.6) = true /\
  (exists q : Q, bucketRisk 45 4.2 0.7 = Finite q /\ (q == 74)%Q) /\
  combinedRisk 45 4.2 0.7 = false /\
  calculateRiskFallback 45 4.2 0.7 = Finite (inject_Z 74) /\
  riskLevelOf (calculateRiskFallback 45 4.2 0.7) = "high"%string /\
  (Binary64.bucketRisk 45 4.2 0.7 = 74 /\
   Binary64.combinedRisk 45 4.2 0.7 = false /\
   Binary64.calculateRiskFallback 45 4.2 0.7 = 74 /\
   Binary64.riskLevelOf (Binary64.calculateRiskFallback 45 4.2 0.7)
   = "high"%string)%float.
Proof.
  repeat split; try (vm_compute; reflexivity).
  exists 74%Q. split; vm_compute; reflexivity.
Qed.



(** When the guard holds the multiplier shows in the score, unless the
    score was 100 already. *)
Lemma multiplier_raises_score (r w s : number) :
  combinedRisk r w s = true ->
  exists n m : Z,
    calculateRiskFallback r w s = Finite (inject_Z n) /\
    Math_min (Math_round (bucketRisk r w s)) 100 = Finite (inject_Z m) /\
    (m < n \/ n = 100)%Z.
Proof.
  intros G. unfold combinedRisk in G.
  apply andb_true_iff in G as [G S7]. apply andb_true_iff in G as [R20 W3].
  unfold calculateRiskFallback, bucketRisk, combinedRisk.
  rewrite R20, W3, S7. cbn [andb].
  split_tests;
    (do 2 eexists; split; [reflexivity | split; [reflexivity |]]);
    vm_compute; first [left; reflexivity | right; reflexivity].
Qed.

(** C4: the 1.3 multiplier is applied exactly when rainfall is above 20,
    water level above 3 and soil moisture above 0.7, all strictly; the
    score is then the rounded and clamped 1.3 times the bucket sum, and the
    rounded bucket sum otherwise.  (20, 3, 0.7) does not trigger it,
    (20.1, 3.1, 0.71) does. *)
Theorem C4_multiplier_guard (r w s : Q) :
  (combinedRisk r w s = true <-> (20 < r /\ 3 < w /\ 7 # 10 < s)%Q) /\
  calculateRiskFallback r w s
  = Math_min
      (Math_round (if combinedRisk r w s
                   then Math_min (bucketRisk r w s * 1.3) 100
                   else bucketRisk r w s)) 100 /\
  (exists n m : Z,
     calculateRiskFallback r w s = Finite (inject_Z n) /\
     Math_min (Math_round (bucketRisk r w s)) 100 = Finite (inject_Z m) /\
     if combinedRisk r w s then (m < n \/ n = 100)%Z else n = m) /\
  (combinedRisk 20 3 0.7 = false /\
   calculateRiskFallback 20 3 0.7 = Finite (inject_Z 38) /\
   combinedRisk 20 3.1 0.71 = false /\
   combinedRisk 20.1 3 0.71 = false /\
   combinedRisk 20.1 3.1 0.7 = false /\
   combinedRisk 20.1 3.1 0.71 = true /\
   (exists q : Q, bucketRisk 20.1 3.1 0.71 = Finite q /\ (q == 60)%Q) /\
   calculateRiskFallback 20.1 3.1 0.71 = Finite (inject_Z 78)) /\
  (Binary64.combinedRisk 20 3 0.7 = false /\
   Binary64.calculateRiskFallback 20 3 0.7 = 38 /\
   Binary64.combinedRisk 20.1 3.1 0.71 = true /\
   Binary64.bucketRisk 20.1 3.1 0.71 = 60 /\
   Binary64.calculateRiskFallback 20.1 3.1 0.71 = 78)%float.
Proof.
  split; [apply combinedRisk_Finite |].
  split; [reflexivity |].
  split.
  - destruct (combinedRisk r w s) eqn:G.
    + apply multiplier_raises_score, G.
    + exists (score r w s), (score r w s).
      rewrite <- calculateRiskFallback_score. split; [reflexivity |].
      split; [| reflexivity].
      unfold calculateRiskFallback. rewrite G. reflexivity.
  - split.
    + repeat split; try (vm_compute; reflexivity).
      exists 60%Q. split; vm_compute; reflexivity.
    + repeat split; vm_compute; reflexivity.
Qed.







End HeuristicProperties.

(** ** The data-source clients *)

Section ClientProperties.
Context `{JsBuiltins}.
#[local] Open Scope Q_scope.
#[local] Open Scope string_scope.

Lemma reads_ret (P : Reading -> Prop) (x : Reading) : P x -> reads P (ret x).
Proof.
  intros Px w. exists (Normal x). split; [reflexivity |].
  intros y [= <-]. exact Px.
Qed.

Lemma reads_lift {A} (P : Reading -> Prop) (c : Completion A) (k : A -> M Reading) :
  (forall a, reads P (k a)) -> reads P (bind (lift c) k).
Proof.
  intros K w. unfold bind, lift. destruct c as [a | e].
  - apply K.
  - exists (Throw e). split; [reflexivity | discriminate].
Qed.

(** A client: the request, then a body that only reads the response. *)
Lemma client_reading (p : Provider) (response : AxiosOutcome)
    (body : JsValue -> M Reading) (fallback : Reading) (name : string) (w : World) :
  (forall data, reads (fun r => source r = name) (body data)) ->
  exists r : Reading,
    try_catch (bind (axios_get p response) body) (fun _ => ret fallback) w
    = (Normal r, logged (HttpGet p) w) /\
    ((exists err, response = Rejected err) -> r = fallback) /\
    (r = fallback \/ source r = name).
Proof.
  intros B. unfold try_catch, bind, axios_get, emit, modify.
  destruct response as [err | data]; cbn.
  - exists fallback. repeat split; auto.
  - destruct (B data (logged (HttpGet p) w)) as (c & -> & C).
    destruct c as [r | e].
    + exists r. repeat split; [| right; apply C; reflexivity].
      intros (err & [=]).
    + exists fallback. repeat split; auto.
Qed.

Ltac client_body :=
  apply client_reading; intros ?;
  repeat (apply reads_lift; intros ?); apply reads_ret; reflexivity.

Lemma fetchRainfallData_reading (response : AxiosOutcome) (lat lng : number)
    (w : World) :
  exists r : Reading,
    fetchRainfallData response lat lng w
    = (Normal r, logged (HttpGet OpenWeatherMap) w) /\
    ((exists err, response = Rejected err) ->
     r = {| value := 0; source := "fallback" |}) /\
    (r = {| value := 0; source := "fallback" |} \/ source r = "OpenWeatherMap").
Proof. client_body. Qed.

Lemma fetchWaterLevel_reading (response : AxiosOutcome) (w : World) :
  exists r : Reading,
    fetchWaterLevel response w = (Normal r, logged (HttpGet USGS) w) /\
    ((exists err, response = Rejected err) ->
     r = {| value := 2.1; source := "fallback" |}) /\
    (r = {| value := 2.1; source := "fallback" |} \/ source r = "USGS").
Proof. client_body. Qed.

Lemma fetchSoilMoisture_reading (response : AxiosOutcome) (lat lng : number)
    (w : World) :
  exists r : Reading,
    fetchSoilMoisture response lat lng w
    = (Normal r, logged (HttpGet SoilGrids) w) /\
    ((exists err, response = Rejected err) ->
     r = {| value := 0.5; source := "fallback" |}) /\
    (r = {| value := 0.5; source := "fallback" |} \/ source r = "SoilGrids").
Proof. client_body. Qed.

(** C2, as the specification states it: a response that is not what the
    provider documents (here the JSON object of an error message, and any
    body that is not JSON, which axios hands over as a string) does not
    make [fetchWaterLevel] return the pair with the source "fallback". *)
Lemma C2_malformed_response_not_fallback :
  ~ (forall (B : JsBuiltins) (data : JsValue) (w : World),
       (data = JsObject [("error", JsString "Service Unavailable")] \/
        exists body, data = JsString body) ->
       fst (fetchWaterLevel (Resolved data) w)
       = Normal {| value := 2.1; source := "fallback" |}).
Proof.
  intros F.
  specialize (F NaN_builtins
                (JsObject [("error", JsString "Service Unavailable")])
                (initial_world true) (or_introl eq_refl)).
  vm_compute in F. discriminate F.
Qed.

(** C2 (amended): each of the three clients returns a reading and throws
    nothing, whatever the provider call comes to, and makes one request.
    When the call is rejected (time-out, network error, status outside 2xx)
    the reading is the fallback pair: 0, 2.1 or 0.5 with the source
    "fallback".  When it resolves, the reading is that fallback pair or a
    reading under the name of the provider; under that name
    [fetchWaterLevel] returns 2.1 for the JSON object of an error message
    and for a body that is not JSON, and [fetchSoilMoisture] 0.5 for a
    body without a mean, while [fetchRainfallData] and [fetchSoilMoisture]
    return the fallback pair for a body that is not JSON. *)
Theorem C2_clients_never_throw (response : AxiosOutcome) (lat lng : number)
    (w : World) :
  (exists r : Reading,
     fetchRainfallData response lat lng w
     = (Normal r, logged (HttpGet OpenWeatherMap) w) /\
     ((exists err, response = Rejected err) ->
      r = {| value := 0; source := "fallback" |}) /\
     (r = {| value := 0; source := "fallback" |} \/ source r = "OpenWeatherMap")) /\
  (exists r : Reading,
     fetchWaterLevel response w = (Normal r, logged (HttpGet USGS) w) /\
     ((exists err, response = Rejected err) ->
      r = {| value := 2.1; source := "fallback" |}) /\
     (r = {| value := 2.1; source := "fallback" |} \/ source r = "USGS")) /\
  (exists r : Reading,
     fetchSoilMoisture response lat lng w
     = (Normal r, logged (HttpGet SoilGrids) w) /\
     ((exists err, response = Rejected err) ->
      r = {| value := 0.5; source := "fallback" |}) /\
     (r = {| value := 0.5; source := "fallback" |} \/ source r = "SoilGrids")) /\
  (fst (fetchWaterLevel
          (Resolved (JsObject [("error", JsString "Service Unavailable")])) w)
   = Normal {| value := 2.1; source := "USGS" |} /\
   forall body : string,
     fst (fetchWaterLevel (Resolved (JsString body)) w)
     = Normal {| value := 2.1; source := "USGS" |}) /\
  fst (fetchSoilMoisture
         (Resolved (JsObject [("properties", JsObject [("layers",
            JsArray [JsObject [("depths",
              JsArray [JsObject [("values", JsObject [])]])]])])])) lat lng w)
  = Normal {| value := 0.5; source := "SoilGrids" |} /\
  forall body : string,
    fst (fetchRainfallData (Resolved (JsString body)) lat lng w)
    = Normal {| value := 0; source := "fallback" |} /\
    fst (fetchSoilMoisture (Resolved (JsString body)) lat lng w)
    = Normal {| value := 0.5; source := "fallback" |}.
Proof.
  split; [apply fetchRainfallData_reading |].
  split; [apply fetchWaterLevel_reading |].
  split; [apply fetchSoilMoisture_reading |].
  split; [split; [reflexivity | intros body; reflexivity] |].
  split; [reflexivity |].
  intros body. split; reflexivity.
Qed.

End ClientProperties.

Lemma C2_clients_never_throw_witness :
  exists r : Reading,
    @fetchWaterLevel NaN_builtins
      (Rejected (Error "timeout of 8000ms exceeded")) (initial_world true)
    = (Normal r, logged (HttpGet USGS) (initial_world true)) /\
    r = {| value := 2.1%Q; source := "fallback" |}.
Proof.
  destruct (proj1 (proj2 (@C2_clients_never_throw NaN_builtins
              (Rejected (Error "timeout of 8000ms exceeded")) 0%Q 0%Q
              (initial_world true)))) as (r & E & F & _).
  exists r. split; [exact E |]. apply F. eexists. reflexivity.
Defined.

(** ** Computations that keep a relation between states *)

Section Preserved.
Context (R : relation World) `{!PreOrder R}.

Lemma preserves_ret {A} (a : A) : preserves R (ret a).
Proof. intros w. reflexivity. Qed.

Lemma preserves_throw {A} (e : JsError) : preserves R (@throw A e).
Proof. intros w. reflexivity. Qed.

Lemma preserves_lift {A} (c : Completion A) : preserves R (lift c).
Proof. intros w. reflexivity. Qed.

Lemma preserves_gets {A} (f : World -> A) : preserves R (gets f).
Proof. intros w. reflexivity. Qed.

Lemma preserves_modify (f : World -> World) :
  (forall w, R w (f w)) -> preserves R (modify f).
Proof. intros F w. apply F. Qed.

Lemma preserves_emit (e : Event) :
  (forall w, R w (logged e w)) -> preserves R (emit e).
Proof. intros F w. apply F. Qed.

Lemma preserves_bind {A B} (c : M A) (k : A -> M B) :
  preserves R c -> (forall a, preserves R (k a)) -> preserves R (bind c k).
Proof.
  intros C K w. unfold bind. specialize (C w).
  destruct (c w) as [[a | e] w']; cbn in C.
  - etransitivity; [exact C | apply K].
  - exact C.
Qed.

Lemma preserves_try_catch {A} (c : M A) (h : JsError -> M A) :
  preserves R c -> (forall e, preserves R (h e)) -> preserves R (try_catch c h).
Proof.
  intros C K w. unfold try_catch. specialize (C w).
  destruct (c w) as [[a | e] w']; cbn in C.
  - exact C.
  - etransitivity; [exact C | apply K].
Qed.

End Preserved.

#[local] Instance same_engine_PreOrder : PreOrder same_engine.
Proof.
  split.
  - intros w. repeat split.
  - intros w1 w2 w3 (A & B & C) (A' & B' & C'). repeat split; congruence.
Qed.

#[local] Instance extends_PreOrder : PreOrder extends.
Proof.
  split.
  - intros w. exists []. symmetry. apply app_nil_r.
  - intros w1 w2 w3 (t & E) (t' & E'). exists (t ++ t').
    rewrite E', E. symmetry. apply app_assoc.
Qed.

#[local] Instance same_sends_PreOrder : PreOrder same_sends.
Proof.
  split.
  - intros w. reflexivity.
  - intros w1 w2 w3 A B. unfold same_sends in *. congruence.
Qed.

#[local] Instance keeps_alerts_PreOrder : PreOrder keeps_alerts.
Proof.
  split.
  - intros w I. repeat split; auto; apply I.
  - intros w1 w2 w3 A B I1.
    destruct (A I1) as (I2 & D & C). destruct (B I2) as (I3 & D' & C').
    repeat split; auto; apply I3.
Qed.

Lemma keeps_alerts_same_store (w w' : World) :
  documents w' = documents w /\ collection w' = collection w /\
  next_id w' = next_id w ->
  keeps_alerts w w'.
Proof.
  intros (D & C & N) I. unfold store_invariant in *. rewrite D, C, N.
  repeat split; auto; apply I.
Qed.

Lemma same_engine_logged (e : Event) (w : World) :
  is_LoadLayersModel e = false -> is_FsExistsSync e = false ->
  same_engine w (logged e w).
Proof.
  intros L F. unfold same_engine, logged. cbn.
  rewrite !List.filter_app. cbn. rewrite L, F, !app_nil_r. repeat split.
Qed.

Lemma extends_logged (e : Event) (w : World) : extends w (logged e w).
Proof. exists [e]. reflexivity. Qed.

Lemma extends_same_trace (w w' : World) : trace w' = trace w -> extends w w'.
Proof. intros E. exists []. rewrite E. symmetry. apply app_nil_r. Qed.

Lemma same_sends_logged (e : Event) (w : World) :
  is_FcmSend e = false -> same_sends w (logged e w).
Proof.
  intros F. unfold same_sends, sends, logged. cbn.
  rewrite List.filter_app. cbn. rewrite F, app_nil_r. reflexivity.
Qed.

(** One step of a state into a related one, for the three relations. *)
Ltac related :=
  solve
    [ apply same_engine_logged; reflexivity
    | apply extends_logged
    | apply extends_same_trace; reflexivity
    | apply same_sends_logged; reflexivity
    | apply keeps_alerts_same_store; repeat split
    | repeat split ].

(** One construct of a computation. *)
Ltac preserves_step :=
  lazymatch goal with
  | |- preserves _ (ret _) => apply preserves_ret; exact _
  | |- preserves _ (throw _) => apply preserves_throw; exact _
  | |- preserves _ (lift _) => apply preserves_lift; exact _
  | |- preserves _ (gets _) => apply preserves_gets; exact _
  | |- preserves _ (emit _) => apply preserves_emit; intros ?; related
  | |- preserves _ (modify _) => apply preserves_modify; intros ?; related
  | |- preserves _ (bind _ _) => apply preserves_bind; [exact _ | | intros ?]
  | |- preserves _ (try_catch _ _) =>
      apply preserves_try_catch; [exact _ | | intros ?]
  | |- preserves _ (match ?x with _ => _ end) => destruct x
  end.

(** ** The risk engine *)

(** [loadModel] never throws; it returns the model of the state it leaves. *)
Lemma loadModel_spec (env : EngineEnv) (w : World) :
  loadModel env w
  = (Normal (model (fst (load_step env (engine w)))), after_load env w).
Proof.
  unfold loadModel, after_load, load_step, bind, gets, try_catch, modify, emit,
    lift, ret, throw.
  destruct w as [[m a u] fb docs coll nid ts tr]. cbn.
  destruct m as [m |]; cbn.
  - unfold with_trace, with_engine; cbn. rewrite app_nil_r. reflexivity.
  - destruct a; cbn.
    + unfold with_trace, with_engine; cbn. rewrite app_nil_r. reflexivity.
    + destruct (load_tfjs env); cbn.
      * destruct (model_file_exists env); cbn.
        -- destruct (loadLayersModel env); cbn;
             unfold logged, with_trace, with_engine; cbn;
             rewrite <- app_assoc; reflexivity.
        -- reflexivity.
      * destruct (load_tfjs_node env); cbn.
        -- destruct (model_file_exists env); cbn.
           ++ destruct (loadLayersModel env); cbn;
                unfold logged, with_trace, with_engine; cbn;
                rewrite <- app_assoc; reflexivity.
           ++ reflexivity.
        -- unfold with_trace, with_engine; cbn. rewrite app_nil_r. reflexivity.
Qed.

Lemma load_step_attempted (env : EngineEnv) (s : ModelState) :
  modelLoadAttempted s = true -> load_step env s = (s, []).
Proof.
  intros A. unfold load_step. rewrite A. destruct (model s); reflexivity.
Qed.

Lemma load_step_loaded (env : EngineEnv) (s : ModelState) (m : LayersModel) :
  model s = Some m -> load_step env s = (s, []).
Proof. intros E. unfold load_step. rewrite E. reflexivity. Qed.

Lemma after_load_unchanged (env : EngineEnv) (w : World) :
  load_step env (engine w) = (engine w, []) -> after_load env w = w.
Proof.
  intros E. unfold after_load.
  destruct w as [s fb docs coll nid ts tr]. cbn in *.
  unfold with_trace, with_engine; cbn.
  rewrite E. cbn. rewrite app_nil_r. reflexivity.
Qed.

Lemma after_load_attempted (env : EngineEnv) (w : World) :
  modelLoadAttempted (engine w) = true -> after_load env w = w.
Proof. intros A. apply after_load_unchanged, load_step_attempted, A. Qed.

Lemma after_load_loaded (env : EngineEnv) (w : World) (m : LayersModel) :
  model (engine w) = Some m -> after_load env w = w.
Proof. intros E. eapply after_load_unchanged, load_step_loaded, E. Qed.

Lemma engine_after_load (env : EngineEnv) (w : World) :
  engine (after_load env w) = fst (load_step env (engine w)).
Proof. reflexivity. Qed.

Lemma trace_after_load (env : EngineEnv) (w : World) :
  trace (after_load env w) = trace w ++ snd (load_step env (engine w)).
Proof. reflexivity. Qed.

(** [predictFloodRisk] never throws either. *)
Lemma predictFloodRisk_spec (env : EngineEnv) (r wl s : number) (w : World) :
  predictFloodRisk env r wl s w
  = match model (engine (after_load env w)) with
    | None => (Normal (calculateRiskFallback r wl s), after_load env w)
    | Some _ =>
        if predict_tfjs env || predict_tfjs_node env then
          (Normal match inference env with
                  | Normal output => modelRiskPercent output
                  | Throw _ => calculateRiskFallback r wl s
                  end,
           logged (Predict [(r / 50%Q)%number; s; (wl / 6%Q)%number;
                            Finite 0.05; Finite 0.05])
             (after_load env w))
        else (Normal (calculateRiskFallback r wl s), after_load env w)
    end.
Proof.
  unfold predictFloodRisk, bind. rewrite loadModel_spec.
  rewrite engine_after_load.
  destruct (model (fst (load_step env (engine w)))) as [m |]; [| reflexivity].
  unfold try_catch, bind, emit, modify, lift, ret.
  destruct (predict_tfjs env || predict_tfjs_node env); [| reflexivity].
  destruct (inference env); reflexivity.
Qed.

Lemma predictFloodRisk_heuristic (env : EngineEnv) (r wl s : number) (w : World) :
  modelLoadAttempted (engine w) = true -> model (engine w) = None ->
  predictFloodRisk env r wl s w = (Normal (calculateRiskFallback r wl s), w).
Proof.
  intros A M. rewrite predictFloodRisk_spec, after_load_attempted by exact A.
  rewrite M. reflexivity.
Qed.

(** The model state after [predictFloodRisk] is the one after its
    [loadModel]. *)
Lemma predictFloodRisk_engine (env : EngineEnv) (r wl s : number) (w : World) :
  exists x w',
    predictFloodRisk env r wl s w = (Normal x, w') /\
    same_engine (after_load env w) w'.
Proof.
  rewrite predictFloodRisk_spec.
  destruct (model (engine (after_load env w)));
    [destruct (predict_tfjs env || predict_tfjs_node env) |];
    do 2 eexists; (split; [reflexivity |]);
    first [apply same_engine_logged; reflexivity | reflexivity].
Qed.

Lemma same_engine_after_load (env : EngineEnv) (w w' : World) :
  same_engine w w' -> same_engine (after_load env w) (after_load env w').
Proof.
  intros (A & B & C). unfold same_engine.
  rewrite !engine_after_load, !trace_after_load, !List.filter_app, A, B, C.
  repeat split.
Qed.

Lemma extends_predictFloodRisk (env : EngineEnv) (r wl s : number) :
  preserves extends (predictFloodRisk env r wl s).
Proof. unfold predictFloodRisk, loadModel. repeat preserves_step. Qed.

Lemma same_sends_predictFloodRisk (env : EngineEnv) (r wl s : number) :
  preserves same_sends (predictFloodRisk env r wl s).
Proof. unfold predictFloodRisk, loadModel. repeat preserves_step. Qed.

Lemma engine_invariant_initial (firebase : bool) :
  engine_invariant (initial_world firebase).
Proof. unfold engine_invariant. cbn. repeat split; (discriminate || lia). Qed.

Lemma engine_invariant_same_engine (w w' : World) :
  same_engine w w' -> engine_invariant w -> engine_invariant w'.
Proof.
  intros (E & L & F). unfold engine_invariant. rewrite E, L, F. tauto.
Qed.

Lemma engine_invariant_after_load (env : EngineEnv) (w : World) :
  engine_invariant w -> engine_invariant (after_load env w).
Proof.
  intros I.
  destruct (modelLoadAttempted (engine w)) eqn:A.
  { rewrite after_load_attempted; assumption. }
  destruct I as (U & I & _). destruct (I A) as (M & L & F).
  assert (U' : usingFallback (engine w) = false).
  { destruct (usingFallback (engine w)); [| reflexivity].
    destruct (U eq_refl) as (A' & _). congruence. }
  unfold engine_invariant.
  rewrite engine_after_load, trace_after_load, !List.filter_app, L, F.
  unfold load_step. rewrite M, A. cbn [app].
  destruct (load_tfjs env || load_tfjs_node env);
    [destruct (negb (model_file_exists env));
       [| destruct (loadLayersModel env)] |];
    cbn; repeat split; (discriminate || lia || congruence || auto).
Qed.

(** C7: with a model loaded, a call of [predictFloodRisk] in which
    TensorFlow cannot be required or inference throws returns the
    heuristic score of that call and leaves the model state as it was: the
    model is still referenced and [usingFallback] is unchanged, so the
    next call runs inference again and, when it succeeds, returns the
    clamped output of the model. *)
Theorem C7_inference_failure_is_transient (env : EngineEnv) (m : LayersModel)
    (r wl s : number) (w : World) :
  model (engine w) = Some m ->
  (predict_tfjs env || predict_tfjs_node env = false \/
   exists e, inference env = Throw e) ->
  exists w',
    predictFloodRisk env r wl s w = (Normal (calculateRiskFallback r wl s), w') /\
    engine w' = engine w /\
    model (engine w') = Some m /\
    usingFallback (engine w') = usingFallback (engine w) /\
    forall env' r' wl' s' output,
      predict_tfjs env' || predict_tfjs_node env' = true ->
      inference env' = Normal output ->
      predictFloodRisk env' r' wl' s' w'
      = (Normal (modelRiskPercent output),
         logged (Predict [(r' / 50%Q)%number; s'; (wl' / 6%Q)%number;
                          Finite 0.05; Finite 0.05]) w').
Proof.
  intros M Fails.
  assert (Next : forall w', engine w' = engine w ->
            forall env' r' wl' s' output,
              predict_tfjs env' || predict_tfjs_node env' = true ->
              inference env' = Normal output ->
              predictFloodRisk env' r' wl' s' w'
              = (Normal (modelRiskPercent output),
                 logged (Predict [(r' / 50%Q)%number; s'; (wl' / 6%Q)%number;
                                  Finite 0.05; Finite 0.05]) w')).
  { intros w' E env' r' wl' s' output T I.
    rewrite predictFloodRisk_spec, (after_load_loaded env' w' m)
      by (rewrite E; exact M).
    rewrite E, M, T, I. reflexivity. }
  rewrite predictFloodRisk_spec, (after_load_loaded env w m M), M.
  destruct Fails as [T | (e & I)].
  - rewrite T. exists w. repeat split; auto.
  - destruct (predict_tfjs env || predict_tfjs_node env).
    + rewrite I. eexists. split; [reflexivity |].
      repeat split; auto.
    + exists w. repeat split; auto.
Qed.

Lemma C7_inference_failure_is_transient_witness :
  let env :=
    {| load_tfjs := true; load_tfjs_node := false; model_file_exists := true;
       loadLayersModel := Normal {| artifact := "ai-model/model.json" |};
       predict_tfjs := true; predict_tfjs_node := false;
       inference := Throw (Error "Model prediction error") |} in
  let w := snd (loadModel env (initial_world true)) in
  exists w',
    predictFloodRisk env 45%Q 4.2%Q 0.7%Q w
    = (Normal (calculateRiskFallback 45%Q 4.2%Q 0.7%Q), w') /\
    engine w' = engine w.
Proof.
  intros env w.
  destruct (C7_inference_failure_is_transient env
              {| artifact := "ai-model/model.json" |} 45%Q 4.2%Q 0.7%Q w)
    as (w' & P & E & _).
  - reflexivity.
  - right. eexists. reflexivity.
  - exists w'. split; assumption.
Defined.

(** ** The alert *)

(** What one call of [sendFloodAlert] on a document in memory does. *)
Lemma sendFloodAlert_spec (env : AlertEnv) (id : nat) (data : FloodData)
    (w : World) :
  documents w !! id = Some data ->
  sendFloodAlert env id w
  = (Normal tt,
     if negb (firebaseInitialized w) || sentAlert data then w
     else
       let sending := logged (FcmSend (alert_message data)) w in
       match fcm_send env with
       | Throw _ => sending
       | Normal _ =>
           let marked :=
             logged (DocumentSave id)
               (with_documents (insert id (set_sentAlert true data)) sending) in
           match alert_save env with
           | Throw _ => marked
           | Normal _ =>
               with_collection (insert id (set_sentAlert true data)) marked
           end
       end).
Proof.
  intros D.
  unfold sendFloodAlert, bind, gets. cbn. rewrite D. cbn.
  destruct (negb (firebaseInitialized w) || sentAlert data); [reflexivity |].
  unfold try_catch, bind, emit, modify, lift. cbn.
  destruct (fcm_send env) as [[] | e]; [| reflexivity].
  unfold document_save, bind, emit, modify, lift, gets. cbn.
  destruct (alert_save env) as [[] | e]; [| reflexivity].
  cbn. rewrite lookup_insert_eq. reflexivity.
Qed.

Lemma sendFloodAlert_missing (env : AlertEnv) (id : nat) (w : World) :
  documents w !! id = None -> snd (sendFloodAlert env id w) = w.
Proof.
  intros D. unfold sendFloodAlert, bind, gets. cbn. rewrite D. reflexivity.
Qed.

Lemma sends_once_sendFloodAlert (env : AlertEnv) (id : nat) :
  sends_once (sendFloodAlert env id).
Proof.
  intros w. destruct (documents w !! id) as [data |] eqn:D.
  - rewrite (sendFloodAlert_spec env id data w D). cbn [snd].
    destruct (negb (firebaseInitialized w) || sentAlert data); [lia |].
    unfold sends.
    destruct (fcm_send env); [destruct (alert_save env) |]; cbn;
      rewrite !List.filter_app, !length_app; cbn; lia.
  - rewrite (sendFloodAlert_missing env id w D). lia.
Qed.

Lemma sent_in_insert (docs : gmap nat FloodData) (id id' : nat) (d : FloodData) :
  sent_in (<[id := d]> docs) id'
  <-> (id' = id /\ sentAlert d = true) \/ (id' <> id /\ sent_in docs id').
Proof.
  unfold sent_in. destruct (decide (id' = id)) as [-> | N].
  - rewrite lookup_insert_eq. split.
    + intros (d' & [= <-] & S). left. auto.
    + intros [[_ S] | [N _]]; [eauto | contradiction].
  - rewrite lookup_insert_ne by auto. split; [right | intros [[E _] | [_ S]]]; auto.
    contradiction.
Qed.

(** [doc.save()] copies the document in memory into the collection. *)
Lemma keeps_alerts_document_save (o : Completion unit) (id : nat) :
  preserves keeps_alerts (document_save o id).
Proof.
  intros w. unfold document_save, bind, emit, modify, lift, gets. cbn.
  destruct o as [[] | e]; [| related].
  cbn. destruct (documents w !! id) as [d |] eqn:D; [| related].
  cbn. intros (F & S).
  assert (K : forall id', sent_in (collection w) id' ->
                          sent_in (<[id := d]> (collection w)) id').
  { intros id' C. apply sent_in_insert.
    destruct (decide (id' = id)) as [-> | N]; [left | right; auto].
    split; [reflexivity |].
    destruct (S id C) as (d' & D' & T). congruence. }
  split; [split |]; cbn; auto.
  intros id' C. apply sent_in_insert in C as [[-> T] | [_ C]]; [| auto].
  exists d. auto.
Qed.

Lemma keeps_alerts_sendFloodAlert (env : AlertEnv) (id : nat) :
  preserves keeps_alerts (sendFloodAlert env id).
Proof.
  intros w. destruct (documents w !! id) as [data |] eqn:D.
  2: { rewrite (sendFloodAlert_missing env id w D). reflexivity. }
  rewrite (sendFloodAlert_spec env id data w D). cbn [snd].
  destruct (negb (firebaseInitialized w) || sentAlert data); [reflexivity |].
  cbv zeta. destruct (fcm_send env) as [[] | e]; [| related].
  set (marked := with_documents (insert id (set_sentAlert true data))
                   (logged (FcmSend (alert_message data)) w)).
  assert (K : keeps_alerts w marked).
  { intros (F & S).
    assert (D' : forall id', sent_in (documents w) id' ->
                             sent_in (documents marked) id').
    { intros id' T. apply sent_in_insert.
      destruct (decide (id' = id)); [left | right]; auto. }
    split; [split |]; cbn; auto.
    intros id' [d' I]. apply F.
    destruct (decide (id' = id)) as [-> | N].
    - rewrite D. eauto.
    - rewrite lookup_insert_ne in I by auto. eauto. }
  assert (L : keeps_alerts marked (logged (DocumentSave id) marked)) by related.
  destruct (alert_save env) as [[] | e'].
  - etransitivity; [exact K |]. etransitivity; [exact L |].
    intros (F & S).
    assert (C' : forall id',
               sent_in (collection marked) id' ->
               sent_in (<[id := set_sentAlert true data]> (collection marked)) id').
    { intros id' T. apply sent_in_insert.
      destruct (decide (id' = id)); [left | right]; auto. }
    split; [split |]; cbn; auto.
    intros id' C. apply sent_in_insert in C as [[-> T] | [_ C]].
    + exists (set_sentAlert true data). split; [apply lookup_insert_eq | exact T].
    + apply (S id' C).
  - etransitivity; [exact K | exact L].
Qed.

Lemma alerts_sent (envs : list AlertEnv) (id : nat) (data : FloodData)
    (w : World) :
  documents w !! id = Some data -> sentAlert data = true ->
  alerts envs id w = w.
Proof.
  intros D S. induction envs as [| env envs IH]; [reflexivity |].
  cbn [alerts fold_left]. rewrite (sendFloodAlert_spec env id data w D), S.
  rewrite orb_true_r. exact IH.
Qed.

Lemma sends_once_preserves {A} (c : M A) :
  preserves same_sends c -> sends_once c.
Proof. intros P w. rewrite (P w). lia. Qed.

Lemma sends_once_bind {A B} (c : M A) (k : A -> M B) :
  preserves same_sends c -> (forall a, sends_once (k a)) -> sends_once (bind c k).
Proof.
  intros C K w. unfold bind. specialize (C w).
  destruct (c w) as [[a | e] w']; cbn in C; rewrite <- C.
  - apply K.
  - cbn. lia.
Qed.

Lemma sends_once_try_catch {A} (c : M A) (h : JsError -> M A) :
  sends_once c -> (forall e, preserves same_sends (h e)) ->
  sends_once (try_catch c h).
Proof.
  intros C K w. unfold try_catch. specialize (C w).
  destruct (c w) as [[a | e] w']; cbn in C.
  - exact C.
  - rewrite (K e w'). exact C.
Qed.

(** ** The ingestion job, the trigger and the runs of the process *)

Section ProcessProperties.
Context `{JsBuiltins}.
#[local] Open Scope Q_scope.

Lemma try_catch_bind_Normal {A B} (c : M A) (k : A -> M B) (h : JsError -> M B)
    (a : A) (w w' : World) :
  c w = (Normal a, w') -> try_catch (bind c k) h w = try_catch (k a) h w'.
Proof. intros E. unfold try_catch, bind. rewrite E. reflexivity. Qed.

(** The three requests of a run of the ingestion job on [w]; what is left
    is the rest of the job, run on the state [fetched]. *)
Ltac fetch env w fetched :=
  unfold ingestion;
  let r := fresh "rainfallData" in
  let E := fresh "E" in
  destruct (fetchRainfallData_reading (rainfall_response env) 6.45 3.39 w)
    as (r & E & _);
  rewrite (try_catch_bind_Normal _ _ _ _ _ _ E); clear E;
  let r := fresh "waterLevelData" in
  destruct (fetchWaterLevel_reading (waterLevel_response env)
              (logged (HttpGet OpenWeatherMap) w)) as (r & E & _);
  rewrite (try_catch_bind_Normal _ _ _ _ _ _ E); clear E;
  let r := fresh "soilMoistureData" in
  destruct (fetchSoilMoisture_reading (soilMoisture_response env) 6.45 3.39
              (logged (HttpGet USGS) (logged (HttpGet OpenWeatherMap) w)))
    as (r & E & _);
  rewrite (try_catch_bind_Normal _ _ _ _ _ _ E); clear E;
  set (fetched := logged (HttpGet SoilGrids) _).

(** What the ingestion job does to the model state is what its one call of
    [loadModel] does. *)
Lemma ingestion_engine (env : CycleEnv) (w : World) :
  same_engine (after_load (engine_env env) w) (snd (ingestion env w)).
Proof.
  fetch env w fetched.
  assert (S : same_engine w fetched).
  { unfold fetched.
    repeat (etransitivity; [| apply same_engine_logged; reflexivity]).
    reflexivity. }
  destruct (predictFloodRisk_engine (engine_env env) (value rainfallData)
              (value waterLevelData) (value soilMoistureData) fetched)
    as (x & w' & E & S').
  rewrite (try_catch_bind_Normal _ _ _ _ _ _ E).
  etransitivity; [apply same_engine_after_load, S |].
  etransitivity; [exact S' |].
  match goal with |- same_engine w' (snd (?c w')) =>
    assert (P : preserves same_engine c); [| apply P] end.
  unfold new_FloodData, io_emit, sendFloodAlert, document_save.
  repeat preserves_step.
Qed.

(** The ingestion job starts with the three requests. *)
Lemma ingestion_requests (env : CycleEnv) (w : World) :
  exists rest,
    trace (snd (ingestion env w))
    = trace w
      ++ [HttpGet OpenWeatherMap; HttpGet USGS; HttpGet SoilGrids] ++ rest.
Proof.
  fetch env w fetched.
  match goal with |- context [snd (?c fetched)] =>
    assert (P : preserves extends c) end.
  { unfold new_FloodData, io_emit, sendFloodAlert, document_save.
    apply preserves_try_catch; [exact _ | | intros ?; preserves_step].
    apply preserves_bind;
      [exact _ | apply extends_predictFloodRisk | intros ?].
    repeat preserves_step. }
  destruct (P fetched) as (rest & ->). exists rest.
  unfold fetched, logged. cbn. rewrite <- !app_assoc. reflexivity.
Qed.

(** The ingestion job gives Firebase at most one message. *)
Lemma ingestion_sends_once (env : CycleEnv) : sends_once (ingestion env).
Proof.
  intros w. fetch env w fetched.
  assert (S : same_sends w fetched).
  { unfold fetched.
    repeat (etransitivity; [| apply same_sends_logged; reflexivity]).
    reflexivity. }
  rewrite <- S.
  match goal with |- (sends (snd (?c fetched)) <= _)%nat =>
    assert (P : sends_once c); [| apply P] end.
  unfold new_FloodData, io_emit.
  apply sends_once_try_catch; [| intros ?; preserves_step].
  apply sends_once_bind; [apply same_sends_predictFloodRisk | intros ?].
  apply sends_once_bind; [repeat preserves_step | intros ?].
  apply sends_once_bind;
    [unfold document_save; repeat preserves_step | intros ?].
  apply sends_once_bind; [repeat preserves_step | intros ?].
  destruct (negb _).
  - apply sends_once_sendFloodAlert.
  - apply sends_once_preserves. preserves_step.
Qed.

(** A new document takes the next [_id], which no document has. *)
Lemma keeps_alerts_new_FloodData (time : nat) (lat lng r wl s p : number)
    (level : string) (ds : DataSource) :
  preserves keeps_alerts (new_FloodData time lat lng r wl s p level ds).
Proof.
  intros w. unfold new_FloodData, bind, gets, modify, ret. cbn.
  intros (F & S).
  assert (N : forall id, sent_in (documents w) id -> id <> next_id w).
  { intros id (d & D & _) ->. specialize (F (next_id w)).
    rewrite D in F. specialize (F (mk_is_Some _ _ eq_refl)). lia. }
  assert (D' : forall id d, sent_in (documents w) id ->
                 sent_in (<[next_id w := d]> (documents w)) id).
  { intros id d T. apply sent_in_insert. right. auto. }
  split; [split |]; cbn; auto.
  intros id [d' I]. destruct (decide (id = next_id w)) as [-> | E]; [lia |].
  rewrite lookup_insert_ne in I by auto.
  specialize (F id (mk_is_Some _ _ I)). lia.
Qed.

(** The ingestion job keeps every alert that was set. *)
Lemma keeps_alerts_ingestion (env : CycleEnv) :
  preserves keeps_alerts (ingestion env).
Proof.
  unfold ingestion, fetchRainfallData, fetchWaterLevel, fetchSoilMoisture,
    axios_get, io_emit.
  repeat first
    [ apply keeps_alerts_new_FloodData
    | apply keeps_alerts_document_save
    | apply keeps_alerts_sendFloodAlert
    | match goal with
      | |- preserves _ (predictFloodRisk _ _ _ _) =>
          unfold predictFloodRisk, loadModel
      end
    | preserves_step ].
Qed.

Lemma run_timeouts_spec (env : CycleEnv) (ts : list Timeout) (w : World) :
  run_timeouts env ts w = (Normal tt, w).
Proof.
  induction ts as [| [delay] ts IH]; [reflexivity |].
  cbn [run_timeouts]. unfold bind. cbn. exact IH.
Qed.

(** A request to the trigger endpoint answers and leaves no timer; nothing
    else changes. *)
Lemma manual_trigger_spec (env : CycleEnv) (w : World) :
  manual_trigger env w
  = (Normal tt,
     with_timers (fun _ => []) (logged (Respond 200 "Data fetch triggered") w)).
Proof.
  unfold manual_trigger, post_api_trigger, fire_timers, bind, try_catch, emit,
    modify, gets. cbn. rewrite run_timeouts_spec. reflexivity.
Qed.

Lemma keeps_alerts_step (s : Step) (w : World) : keeps_alerts w (step s w).
Proof.
  destruct s as [env | env]; unfold step.
  - apply keeps_alerts_ingestion.
  - rewrite manual_trigger_spec. related.
Qed.

Lemma keeps_alerts_run (steps : list Step) (w : World) :
  keeps_alerts w (run steps w).
Proof.
  revert w. induction steps as [| s steps IH]; intros w; [reflexivity |].
  etransitivity; [apply keeps_alerts_step | apply IH].
Qed.

Lemma store_invariant_initial (firebase : bool) :
  store_invariant (initial_world firebase).
Proof.
  split; cbn.
  - intros id [d D]. rewrite lookup_empty in D. discriminate D.
  - intros id (d & D & _). rewrite lookup_empty in D. discriminate D.
Qed.

Lemma same_engine_Trigger (env : CycleEnv) (w : World) :
  same_engine w (step (Trigger env) w).
Proof.
  unfold step. rewrite manual_trigger_spec. cbn [snd].
  transitivity (logged (Respond 200 "Data fetch triggered") w).
  - apply same_engine_logged; reflexivity.
  - repeat split.
Qed.

Lemma engine_invariant_step (s : Step) (w : World) :
  engine_invariant w -> engine_invariant (step s w).
Proof.
  intros I. destruct s as [env | env].
  - eapply engine_invariant_same_engine; [apply ingestion_engine |].
    apply engine_invariant_after_load, I.
  - eapply engine_invariant_same_engine; [apply same_engine_Trigger | exact I].
Qed.

Lemma engine_invariant_run (steps : list Step) (w : World) :
  engine_invariant w -> engine_invariant (run steps w).
Proof.
  revert w. induction steps as [| s steps IH]; intros w I; [exact I |].
  apply IH, engine_invariant_step, I.
Qed.

(** Once the load has been attempted no step touches the model state. *)
Lemma same_engine_step_attempted (s : Step) (w : World) :
  modelLoadAttempted (engine w) = true -> same_engine w (step s w).
Proof.
  intros A. destruct s as [env | env].
  - rewrite <- (after_load_attempted (engine_env env) w A) at 1.
    apply ingestion_engine.
  - apply same_engine_Trigger.
Qed.

Lemma same_engine_run_attempted (steps : list Step) (w : World) :
  modelLoadAttempted (engine w) = true -> same_engine w (run steps w).
Proof.
  revert w. induction steps as [| s steps IH]; intros w A.
  - reflexivity.
  - pose proof (same_engine_step_attempted s w A) as S.
    etransitivity; [exact S |].
    apply IH. destruct S as (-> & _). exact A.
Qed.

(** C5: the load is attempted once.  A call of [loadModel] that finds the
    flag set and no model returns at once and changes nothing; the first
    call sets the flag, and leaves [usingFallback] set and no model when
    TensorFlow is missing, the model file is absent or the load throws;
    with the flag set and no model [predictFloodRisk] is the heuristic.
    Along every run of the process from its start there is at most one
    call of [tf.loadLayersModel] and one look for the model file, and once
    [usingFallback] is set the model state never changes again and every
    later call of [predictFloodRisk] returns the heuristic score. *)
Theorem C5_model_load_attempted_once :
  (forall env w,
     modelLoadAttempted (engine w) = true -> model (engine w) = None ->
     loadModel env w = (Normal None, w)) /\
  (forall env w,
     modelLoadAttempted (engine w) = false -> model (engine w) = None ->
     let w' := snd (loadModel env w) in
     modelLoadAttempted (engine w') = true /\
     ((load_tfjs env || load_tfjs_node env = false \/
       model_file_exists env = false \/
       (exists e, loadLayersModel env = Throw e)) ->
      usingFallback (engine w') = true /\ model (engine w') = None)) /\
  (forall env r wl s w,
     modelLoadAttempted (engine w) = true -> model (engine w) = None ->
     predictFloodRisk env r wl s w
     = (Normal (calculateRiskFallback r wl s), w)) /\
  (forall firebase steps,
     let w := run steps (initial_world firebase) in
     (length (List.filter is_LoadLayersModel (trace w)) <= 1)%nat /\
     (length (List.filter is_FsExistsSync (trace w)) <= 1)%nat /\
     (usingFallback (engine w) = true ->
      forall more,
        engine (run more w) = engine w /\
        List.filter is_LoadLayersModel (trace (run more w))
        = List.filter is_LoadLayersModel (trace w) /\
        forall env r wl s,
          predictFloodRisk env r wl s (run more w)
          = (Normal (calculateRiskFallback r wl s), run more w))).
Proof.
  split; [| split; [| split]].
  - intros env w A M.
    rewrite loadModel_spec, after_load_attempted, load_step_attempted
      by exact A.
    cbn [fst]. rewrite M. reflexivity.
  - intros env w A M. rewrite loadModel_spec. cbn [snd].
    rewrite engine_after_load. unfold load_step. rewrite M, A. split.
    + destruct (load_tfjs env || load_tfjs_node env);
        [destruct (negb (model_file_exists env));
           [| destruct (loadLayersModel env)] |]; reflexivity.
    + intros [T | [F | (e & L)]].
      * rewrite T. split; [reflexivity | exact M].
      * rewrite F. destruct (load_tfjs env || load_tfjs_node env);
          (split; [reflexivity | exact M]).
      * rewrite L. destruct (load_tfjs env || load_tfjs_node env);
          [destruct (negb (model_file_exists env)) |];
          (split; [reflexivity | exact M]).
  - intros env r wl s w. apply predictFloodRisk_heuristic.
  - intros firebase steps w.
    assert (I : engine_invariant w)
      by apply engine_invariant_run, engine_invariant_initial.
    destruct I as (U & _ & L & F).
    split; [exact L |]. split; [exact F |].
    intros UF more. destruct (U UF) as (A & M).
    destruct (same_engine_run_attempted more w A) as (E & L' & _).
    split; [exact E |]. split; [exact L' |].
    intros env r wl s. apply predictFloodRisk_heuristic; rewrite E; assumption.
Qed.

(** C9: a request to [POST /api/trigger] answers "Data fetch triggered"
    and, when its time-out fires, runs a new task whose function is empty:
    no request to a provider, no prediction, no document, no broadcast and
    no alert, where the ingestion job would have started with the three
    requests. *)
Theorem C9_manual_trigger_runs_no_cycle (env : CycleEnv) (w : World) :
  let w' := snd (manual_trigger env w) in
  fst (manual_trigger env w) = Normal tt /\
  trace w' = trace w ++ [Respond 200 "Data fetch triggered"] /\
  documents w' = documents w /\
  collection w' = collection w /\
  engine w' = engine w /\
  next_id w' = next_id w /\
  run_job env (job (cron_schedule "* * * * * *" RunOnceJob false)) w
  = (Normal tt, w) /\
  exists rest,
    trace (snd (run_job env IngestionJob w))
    = trace w
      ++ [HttpGet OpenWeatherMap; HttpGet USGS; HttpGet SoilGrids] ++ rest.
Proof.
  cbv zeta. rewrite manual_trigger_spec. cbn [fst snd].
  repeat split. apply ingestion_requests.
Qed.

(** C6: [sendFloodAlert] on a document in memory never throws.  On a
    document whose [sentAlert] is set, or without Firebase, it does
    nothing.  Otherwise it sends once: when the send fails nothing but
    that one send has happened, [sentAlert] stays false in memory and in
    the collection; when it succeeds [sentAlert] is set in memory and the
    document is saved, reaching the collection when the save succeeds.
    [sentAlert] is never reset: after any attempts that left it set, every
    further attempt changes nothing, and along every run of the process a
    document that has it set, in memory or in the collection, keeps it.
    One run of the ingestion job gives Firebase at most one message. *)
Theorem C6_sentAlert_set_once (env : AlertEnv) (id : nat) (data : FloodData)
    (w : World) :
  documents w !! id = Some data ->
  let w' := snd (sendFloodAlert env id w) in
  fst (sendFloodAlert env id w) = Normal tt /\
  (sentAlert data = true -> w' = w) /\
  (firebaseInitialized w = false -> w' = w) /\
  (sentAlert data = false -> firebaseInitialized w = true ->
   (exists e, fcm_send env = Throw e) ->
   w' = logged (FcmSend (alert_message data)) w /\
   documents w' !! id = Some data /\
   collection w' = collection w) /\
  (sentAlert data = false -> firebaseInitialized w = true ->
   fcm_send env = Normal tt ->
   documents w' !! id = Some (set_sentAlert true data) /\
   trace w' = trace w ++ [FcmSend (alert_message data); DocumentSave id] /\
   collection w'
   = match alert_save env with
     | Normal _ => <[id := set_sentAlert true data]> (collection w)
     | Throw _ => collection w
     end) /\
  (exists data',
     documents w' !! id = Some data' /\
     (sentAlert data = true -> sentAlert data' = true) /\
     (sentAlert data' = true -> sentAlert data = false ->
      firebaseInitialized w = true /\ fcm_send env = Normal tt)) /\
  (sends w' <= sends w + 1)%nat /\
  (forall envs sent,
     documents (alerts envs id w) !! id = Some sent -> sentAlert sent = true ->
     forall more, alerts (envs ++ more) id w = alerts envs id w) /\
  (forall cycle start,
     (sends (snd (ingestion cycle start)) <= sends start + 1)%nat) /\
  (forall firebase steps more doc,
     let reached := run steps (initial_world firebase) in
     (sent_in (documents reached) doc ->
      sent_in (documents (run more reached)) doc) /\
     (sent_in (collection reached) doc ->
      sent_in (collection (run more reached)) doc)).
Proof.
  intros D. cbv zeta.
  pose proof (sends_once_sendFloodAlert env id w) as Once.
  rewrite (sendFloodAlert_spec env id data w D) in *.
  cbn [fst snd] in *.
  split; [reflexivity |].
  split; [intros ->; rewrite orb_true_r; reflexivity |].
  split; [intros ->; reflexivity |].
  split.
  { intros -> -> (e & ->). cbn. repeat split. exact D. }
  split.
  { intros -> -> ->. cbn.
    destruct (alert_save env); cbn;
      (split; [apply lookup_insert_eq |]);
      (split; [rewrite <- app_assoc; reflexivity | reflexivity]). }
  split.
  { destruct (firebaseInitialized w), (sentAlert data) eqn:S; cbn;
      try (exists data; rewrite S; repeat split; (assumption || discriminate)).
    destruct (fcm_send env) as [[] | e].
    - exists (set_sentAlert true data).
      split; [destruct (alert_save env); cbn; apply lookup_insert_eq |].
      repeat split.
    - exists data. rewrite S. repeat split; (assumption || discriminate). }
  split; [exact Once |].
  split.
  { intros envs sent S T more. unfold alerts at 1. rewrite fold_left_app.
    apply (alerts_sent more id sent _ S T). }
  split; [intros cycle start; apply ingestion_sends_once |].
  intros firebase steps more doc.
  set (reached := run steps (initial_world firebase)).
  assert (I : store_invariant reached).
  { apply (keeps_alerts_run steps (initial_world firebase)),
      store_invariant_initial. }
  destruct (keeps_alerts_run more reached I) as (_ & D' & C').
  split; [apply D' | apply C'].
Qed.

End ProcessProperties.

Lemma C5_model_load_attempted_once_witness :
  let env :=
    {| load_tfjs := false; load_tfjs_node := false; model_file_exists := false;
       loadLayersModel := Throw (Error "no model");
       predict_tfjs := false; predict_tfjs_node := false;
       inference := Throw (Error "no model") |} in
  let w := snd (loadModel env (initial_world true)) in
  loadModel env w = (Normal None, w).
Proof.
  intros env w.
  apply (proj1 (@C5_model_load_attempted_once NaN_builtins) env w); reflexivity.
Defined.

Lemma C6_sentAlert_set_once_witness :
  let data :=
    {| doc_id := 0; timestamp := 0; lat := 6.45%Q; lng := 3.39%Q;
       rainfall := 45%Q; waterLevel := 4.2%Q; soilMoisture := 0.7%Q;
       prediction := 74%Q; riskLevel := "high"; sentAlert := true;
       dataSource := {| rainfallSource := "OpenWeatherMap";
                        waterLevelSource := "USGS";
                        soilMoistureSource := "SoilGrids" |} |} in
  let w := with_documents (insert 0%nat data) (initial_world true) in
  let env := {| fcm_send := Normal tt; alert_save := Normal tt |} in
  snd (sendFloodAlert env 0 w) = w.
Proof.
  intros data w env.
  apply (proj1 (proj2 (@C6_sentAlert_set_once NaN_builtins env 0 data w
                         (lookup_insert_eq _ _ _)))).
  reflexivity.
Defined.

(** * Further properties of the code *)

(** ** The heuristic and the risk levels *)

Section MoreHeuristic.
#[local] Open Scope Q_scope.
#[local] Open Scope number_scope.

Lemma number_lt_Finite (a b : Q) : number_lt (Finite a) (Finite b) = Qltb a b.
Proof. reflexivity. Qed.


(** X1: the level of a finite score is low below 30, medium from 30 and
    below 70, high from 70; a score that is [NaN] is classified high, and
    so is every score the model path makes of a [NaN] output. *)
Theorem riskLevelOf_thresholds (q : Q) :
  (riskLevelOf q = "low"%string <-> (q < 30)%Q) /\
  (riskLevelOf q = "medium"%string <-> (30 <= q < 70)%Q) /\
  (riskLevelOf q = "high"%string <-> (70 <= q)%Q) /\
  riskLevelOf NaN = "high"%string /\
  riskLevelOf (modelRiskPercent NaN) = "high"%string.
Proof.
  unfold riskLevelOf. rewrite !number_lt_Finite.
  destruct (Qltb q 30) eqn:A, (Qltb q 70) eqn:B; tests_to_Q;
    repeat split; intros; try discriminate; try reflexivity; lra.
Qed.







(** X4: whenever the multiplier applies (rainfall above 20, water level
    above 3 and soil moisture above 0.7) the score is at least 78 and the
    level is high. *)
Theorem combined_risk_is_high (r w s : number) :
  combinedRisk r w s = true ->
  exists n : Z,
    calculateRiskFallback r w s = Finite (inject_Z n) /\
    (78 <= n <= 100)%Z /\
    riskLevelOf (calculateRiskFallback r w s) = "high"%string.
Proof.
  intros G. unfold combinedRisk in G.
  apply andb_true_iff in G as [G S7]. apply andb_true_iff in G as [R20 W3].
  unfold calculateRiskFallback, bucketRisk, combinedRisk.
  rewrite R20, W3, S7. cbn [andb].
  split_tests;
    match goal with
    | |- exists n, ?x = _ /\ _ =>
        let v := eval vm_compute in x in
        match v with Finite (?z # 1) => exists z end
    end;
    (split; [vm_compute; reflexivity |]);
    (split; [lia | vm_compute; reflexivity]).
Qed.

Lemma combined_risk_is_high_witness :
  exists n : Z,
    calculateRiskFallback 20.1 3.1 0.71 = Finite (inject_Z n) /\
    (78 <= n <= 100)%Z /\
    riskLevelOf (calculateRiskFallback 20.1 3.1 0.71) = "high"%string.
Proof. apply (combined_risk_is_high 20.1 3.1 0.71). reflexivity. Defined.

(** X5: in binary64, for every rainfall above 5 (infinite or not) and
    every water level and soil moisture ([NaN] included), the score is an
    integer from 10 to 100. *)
Theorem binary64_score_range (fr fw fs : float) :
  Binary64.gt fr 5 = true ->
  exists n : Z,
    Binary64.calculateRiskFallback fr fw fs = Binary64.float_of_Z n /\
    (10 <= n <= 100)%Z.
Proof.
  intros R5.
  unfold Binary64.calculateRiskFallback, Binary64.bucketRisk,
    Binary64.combinedRisk.
  rewrite R5.
  destruct (Binary64.gt fr 20), (Binary64.gt fw 3), (Binary64.gt fs 0.7);
    cbn [andb]; split_tests;
    match goal with
    | |- exists n, ?x = _ /\ _ =>
        let v := eval vm_compute in (Prim2SF x) in
        match v with
        | S754_finite false ?m ?e =>
            let z := eval vm_compute in (Z.shiftl (Z.pos m) e) in exists z
        end
    end;
    (split; [vm_compute; reflexivity | lia]).
Qed.

Lemma binary64_score_range_witness :
  exists n : Z,
    Binary64.calculateRiskFallback infinity nan 0.71 = Binary64.float_of_Z n /\
    (10 <= n <= 100)%Z.
Proof. apply (binary64_score_range infinity nan 0.71). reflexivity. Defined.

End MoreHeuristic.

(** ** The risk engine along a run *)

Section MoreEngine.
Context `{JsBuiltins}.
#[local] Open Scope Q_scope.
#[local] Open Scope number_scope.


Lemma mode_invariant_load_step (env : EngineEnv) (s : ModelState) :
  mode_invariant s ->
  mode_invariant (fst (load_step env s)) /\
  modelLoadAttempted (fst (load_step env s)) = true.
Proof.
  unfold mode_invariant, load_step. destruct s as [m a u]. cbn.
  destruct a; cbn.
  - intros I. destruct m; cbn; auto.
  - intros (-> & ->). cbn.
    destruct (load_tfjs env || load_tfjs_node env);
      [destruct (negb (model_file_exists env));
         [| destruct (loadLayersModel env)] |];
      cbn; split; try reflexivity; split; congruence.
Qed.

Lemma mode_invariant_step (st : Step) (w : World) :
  mode_invariant (engine w) ->
  mode_invariant (engine (step st w)) /\
  (is_Tick st = true -> modelLoadAttempted (engine (step st w)) = true).
Proof.
  intros I. destruct st as [env | env].
  - cbn [step]. destruct (ingestion_engine env w) as (-> & _).
    rewrite engine_after_load.
    destruct (mode_invariant_load_step (engine_env env) (engine w) I); auto.
  - destruct (same_engine_Trigger env w) as (-> & _).
    split; [exact I | discriminate].
Qed.

Lemma mode_invariant_run (steps : list Step) (w : World) :
  mode_invariant (engine w) -> mode_invariant (engine (run steps w)).
Proof.
  revert w. induction steps as [| st steps IH]; intros w I; [exact I |].
  apply IH, mode_invariant_step, I.
Qed.

Lemma run_app (steps more : list Step) (w : World) :
  run (steps ++ more) w = run more (run steps w).
Proof. apply fold_left_app. Qed.

(** X7: the mode of the engine is decided by the first call of
    [loadModel] and never changes afterwards.  Until then the reported
    status is "ai-model" although no model is loaded.  Once the load made
    at start-up is over, the status is "ai-model" exactly when a model is
    loaded, which is exactly when TensorFlow was found, the model file
    exists and [tf.loadLayersModel] succeeded; no run of the ingestion job
    and no request to the trigger changes the model state after that
    (a model file added later is never looked for).  In a process whose
    start-up load did not happen, the first run of the job decides in the
    same way. *)
Theorem mode_decided_by_first_load (firebase : bool) (startup : EngineEnv) :
  let w0 := initial_world firebase in
  let w1 := snd (on_listening startup w0) in
  (modelStatus w0 = "ai-model"%string /\ model (engine w0) = None) /\
  (modelStatus w1 = "ai-model"%string <-> model (engine w1) <> None) /\
  (model (engine w1) <> None <->
   load_tfjs startup || load_tfjs_node startup = true /\
   model_file_exists startup = true /\
   exists m, loadLayersModel startup = Normal m) /\
  (forall steps, engine (run steps w1) = engine w1) /\
  (forall before env after,
     let w := run (before ++ Tick env :: after) w0 in
     (modelStatus w = "ai-model"%string <-> model (engine w) <> None) /\
     forall more, engine (run more w) = engine w).
Proof.
  intros w0 w1.
  assert (I0 : mode_invariant (engine w0)) by (split; reflexivity).
  assert (Decided : forall w,
             mode_invariant (engine w) ->
             modelLoadAttempted (engine w) = true ->
             (modelStatus w = "ai-model"%string <-> model (engine w) <> None) /\
             forall more, engine (run more w) = engine w).
  { intros w I A. split.
    - unfold modelStatus. unfold mode_invariant in I. rewrite A in I.
      destruct (usingFallback (engine w)) eqn:U.
      + split; [discriminate |]. intros M. exfalso. apply M, I. reflexivity.
      + split; [| reflexivity]. intros _ M. apply I in M. discriminate M.
    - intros more. destruct (same_engine_run_attempted more w A) as (E & _).
      exact E. }
  assert (E1 : w1 = after_load startup w0).
  { unfold w1, on_listening, bind. rewrite loadModel_spec. reflexivity. }
  destruct (mode_invariant_load_step startup (engine w0) I0) as (I1 & A1).
  rewrite <- engine_after_load, <- E1 in I1, A1.
  split; [split; reflexivity |].
  split; [apply (Decided w1 I1 A1) |].
  split.
  { rewrite E1, engine_after_load. unfold load_step. cbn.
    destruct (load_tfjs startup || load_tfjs_node startup);
      [destruct (model_file_exists startup);
         [destruct (loadLayersModel startup) as [m | e] |] |]; cbn.
    - split; [intros _; repeat split; eauto | discriminate].
    - split; [contradiction | intros (_ & _ & m & [=])].
    - split; [contradiction | intros (_ & [=] & _)].
    - split; [contradiction | intros ([=] & _)]. }
  split; [apply (Decided w1 I1 A1) |].
  intros before env after. cbv zeta. rewrite run_app. cbn [run fold_left].
  fold (run after (step (Tick env) (run before w0))).
  set (w2 := step (Tick env) (run before w0)).
  destruct (mode_invariant_step (Tick env) (run before w0)
              (mode_invariant_run before _ I0)) as [I2 A2].
  specialize (A2 eq_refl). fold w2 in I2, A2.
  destruct (same_engine_run_attempted after w2 A2) as (E & _).
  apply Decided.
  - rewrite E. exact I2.
  - rewrite E. exact A2.
Qed.

End MoreEngine.

(** ** The readings of the clients *)

Section MoreClients.
Context `{JsBuiltins}.
#[local] Open Scope Q_scope.
#[local] Open Scope string_scope.








End MoreClients.

(** ** One run of the ingestion job *)

Section MoreIngestion.
Context `{JsBuiltins}.
#[local] Open Scope Q_scope.
#[local] Open Scope string_scope.

Lemma same_store_logged (e : Event) (w : World) : same_store w (logged e w).
Proof. repeat split. Qed.

Lemma same_store_trans (w1 w2 w3 : World) :
  same_store w1 w2 -> same_store w2 w3 -> same_store w1 w3.
Proof.
  intros (A & B & C & D) (A' & B' & C' & D'). repeat split; congruence.
Qed.

Lemma broadcasts_logged (e : Event) (w : World) :
  broadcasts (logged e w) = (broadcasts w ++ if is_IoEmit e then [e] else [])%list.
Proof.
  unfold broadcasts, logged. cbn. rewrite List.filter_app. cbn.
  destruct (is_IoEmit e); reflexivity.
Qed.

Lemma messages_logged (e : Event) (w : World) :
  messages (logged e w) = (messages w ++ if is_FcmSend e then [e] else [])%list.
Proof.
  unfold messages, logged. cbn. rewrite List.filter_app. cbn.
  destruct (is_FcmSend e); reflexivity.
Qed.

(** The prediction touches neither the documents nor the collection, and
    gives nothing to Firebase or to the clients. *)
Lemma predictFloodRisk_store (env : EngineEnv) (r wl s : number) (w : World) :
  exists x w',
    predictFloodRisk env r wl s w = (Normal x, w') /\
    same_store w w' /\ messages w' = messages w /\
    broadcasts w' = broadcasts w.
Proof.
  assert (L : same_store w (after_load env w) /\
              messages (after_load env w) = messages w /\
              broadcasts (after_load env w) = broadcasts w).
  { split; [repeat split |].
    unfold messages, broadcasts. rewrite trace_after_load, !List.filter_app.
    unfold load_step.
    destruct (model (engine w)); [| destruct (modelLoadAttempted (engine w));
      [| destruct (load_tfjs env || load_tfjs_node env);
         [destruct (negb (model_file_exists env));
            [| destruct (loadLayersModel env)] |]]];
      cbn; rewrite !app_nil_r; split; reflexivity. }
  destruct L as (S & N & E).
  rewrite predictFloodRisk_spec.
  set (w1 := after_load env w) in *. clearbody w1.
  destruct (model (engine w1));
    [destruct (predict_tfjs env || predict_tfjs_node env) |];
    do 2 eexists; (split; [reflexivity |]); cbn [snd];
    try (split; [exact S | split; [exact N | exact E]]).
  split; [eapply same_store_trans; [exact S | apply same_store_logged] |].
  rewrite messages_logged, broadcasts_logged. cbn. rewrite !app_nil_r.
  split; [exact N | exact E].
Qed.

Lemma try_catch_bind_Throw {A B} (c : M A) (k : A -> M B) (h : JsError -> M B)
    (e : JsError) (w w' : World) :
  c w = (Throw e, w') -> try_catch (bind c k) h w = h e w'.
Proof. intros E. unfold try_catch, bind. rewrite E. reflexivity. Qed.

Lemma try_catch_swallow (c : M unit) (w : World) :
  try_catch c (fun _ => ret tt) w = (Normal tt, snd (c w)).
Proof. unfold try_catch. destruct (c w) as [[[] | e] w']; reflexivity. Qed.

Lemma document_save_spec (outcome : Completion unit) (id : nat) (d : FloodData)
    (w : World) :
  documents w !! id = Some d ->
  document_save outcome id w
  = match outcome with
    | Normal _ =>
        (Normal tt, with_collection (insert id d) (logged (DocumentSave id) w))
    | Throw e => (Throw e, logged (DocumentSave id) w)
    end.
Proof.
  intros D. unfold document_save, bind, emit, modify, lift, gets. cbn.
  destruct outcome as [[] | e]; [| reflexivity]. cbn. rewrite D. reflexivity.
Qed.

Lemma io_emit_spec (name : string) (id : nat) (d : FloodData) (w : World) :
  documents w !! id = Some d ->
  io_emit name id w = (Normal tt, logged (IoEmit name d) w).
Proof.
  intros D. unfold io_emit, bind, gets. cbn. rewrite D. reflexivity.
Qed.

(** What one run of the ingestion job does: three readings, a score, and
    the state [after_cycle] of the document made of them. *)
Lemma ingestion_spec (env : CycleEnv) (w : World) :
  exists r1 r2 r3 x scored,
    fetchRainfallData (rainfall_response env) 6.45 3.39 w
    = (Normal r1, logged (HttpGet OpenWeatherMap) w) /\
    fetchWaterLevel (waterLevel_response env) (logged (HttpGet OpenWeatherMap) w)
    = (Normal r2, logged (HttpGet USGS) (logged (HttpGet OpenWeatherMap) w)) /\
    fetchSoilMoisture (soilMoisture_response env) 6.45 3.39
      (logged (HttpGet USGS) (logged (HttpGet OpenWeatherMap) w))
    = (Normal r3,
       logged (HttpGet SoilGrids)
         (logged (HttpGet USGS) (logged (HttpGet OpenWeatherMap) w))) /\
    predictFloodRisk (engine_env env) (value r1) (value r2) (value r3)
      (logged (HttpGet SoilGrids)
         (logged (HttpGet USGS) (logged (HttpGet OpenWeatherMap) w)))
    = (Normal x, scored) /\
    same_store w scored /\ messages scored = messages w /\
    broadcasts scored = broadcasts w /\
    ingestion env w
    = (Normal tt,
       after_cycle env scored (cycle_document env (next_id w) r1 r2 r3 x)).
Proof.
  destruct (fetchRainfallData_reading (rainfall_response env) 6.45 3.39 w)
    as (r1 & E1 & _).
  destruct (fetchWaterLevel_reading (waterLevel_response env)
              (logged (HttpGet OpenWeatherMap) w)) as (r2 & E2 & _).
  destruct (fetchSoilMoisture_reading (soilMoisture_response env) 6.45 3.39
              (logged (HttpGet USGS) (logged (HttpGet OpenWeatherMap) w)))
    as (r3 & E3 & _).
  set (fetched := logged (HttpGet SoilGrids) _) in *.
  destruct (predictFloodRisk_store (engine_env env) (value r1) (value r2)
              (value r3) fetched) as (x & scored & E4 & S & N & B).
  exists r1, r2, r3, x, scored.
  split; [exact E1 |]. split; [exact E2 |]. split; [exact E3 |].
  split; [exact E4 |].
  assert (S' : same_store w scored).
  { eapply same_store_trans; [| exact S]. repeat split. }
  split; [exact S' |].
  split. { rewrite N. unfold fetched. rewrite !messages_logged. cbn.
           rewrite !app_nil_r. reflexivity. }
  split. { rewrite B. unfold fetched. rewrite !broadcasts_logged. cbn.
           rewrite !app_nil_r. reflexivity. }
  unfold ingestion.
  rewrite (try_catch_bind_Normal _ _ _ _ _ _ E1).
  rewrite (try_catch_bind_Normal _ _ _ _ _ _ E2).
  rewrite (try_catch_bind_Normal _ _ _ _ _ _ E3).
  rewrite (try_catch_bind_Normal _ _ _ _ _ _ E4).
  destruct S' as (_ & _ & NI & _). rewrite <- NI.
  set (d := cycle_document env (next_id scored) r1 r2 r3 x).
  set (created := with_documents (insert (next_id scored) d)
                    (with_next_id (Datatypes.S (next_id scored)) scored)).
  assert (E5 : new_FloodData (now env) 6.45 3.39 (value r1) (value r2)
                 (value r3) x (riskLevelOf x)
                 {| rainfallSource := source r1; waterLevelSource := source r2;
                    soilMoistureSource := source r3 |} scored
               = (Normal (next_id scored), created)) by reflexivity.
  rewrite (try_catch_bind_Normal _ _ _ _ _ _ E5).
  assert (D : documents created !! next_id scored = Some d)
    by apply lookup_insert_eq.
  pose proof (document_save_spec (ingestion_save env) _ _ _ D) as E6.
  unfold after_cycle. cbn [doc_id cycle_document d]. fold d. fold created.
  destruct (ingestion_save env) as [[] | e].
  - rewrite (try_catch_bind_Normal _ _ _ _ _ _ E6).
    set (saved := with_collection _ _) in *.
    assert (D' : documents saved !! next_id scored = Some d) by exact D.
    rewrite (try_catch_bind_Normal _ _ _ _ _ _
               (io_emit_spec "floodUpdate" _ _ _ D')).
    change (riskLevel d) with (riskLevelOf x).
    destruct (negb (riskLevelOf x =? "low")).
    + apply try_catch_swallow.
    + reflexivity.
  - rewrite (try_catch_bind_Throw _ _ _ _ _ _ E6). reflexivity.
Qed.

(** What the part of the job after the prediction leaves behind. *)
Lemma after_cycle_spec (env : CycleEnv) (scored : World) (d : FloodData) :
  sentAlert d = false ->
  let w' := after_cycle env scored d in
  firebaseInitialized w' = firebaseInitialized scored /\
  match ingestion_save env with
  | Throw _ =>
      collection w' = collection scored /\
      broadcasts w' = broadcasts scored /\
      messages w' = messages scored
  | Normal _ =>
      broadcasts w' = (broadcasts scored ++ [IoEmit "floodUpdate" d])%list /\
      if firebaseInitialized scored && negb (riskLevel d =? "low")
      then
        messages w' = (messages scored ++ [FcmSend (alert_message d)])%list /\
        collection w'
        = match fcm_send (alert_env env), alert_save (alert_env env) with
          | Normal _, Normal _ =>
              <[doc_id d := set_sentAlert true d]> (collection scored)
          | _, _ => <[doc_id d := d]> (collection scored)
          end
      else
        messages w' = messages scored /\
        collection w' = <[doc_id d := d]> (collection scored)
  end.
Proof.
  intros SA. cbv zeta. unfold after_cycle.
  destruct (ingestion_save env) as [[] | e].
  2: { unfold broadcasts, messages, logged. cbn. rewrite !List.filter_app. cbn.
       rewrite !app_nil_r. repeat split. }
  set (broadcast := logged (IoEmit _ d) _).
  assert (D : documents broadcast !! doc_id d = Some d) by apply lookup_insert_eq.
  assert (F : firebaseInitialized broadcast = firebaseInitialized scored)
    by reflexivity.
  assert (B : broadcasts broadcast
              = (broadcasts scored ++ [IoEmit "floodUpdate" d])%list).
  { unfold broadcast, broadcasts, logged. cbn. rewrite !List.filter_app. cbn.
    rewrite !app_nil_r. reflexivity. }
  assert (N : messages broadcast = messages scored).
  { unfold broadcast, messages, logged. cbn. rewrite !List.filter_app. cbn.
    rewrite !app_nil_r. reflexivity. }
  assert (C : collection broadcast = <[doc_id d := d]> (collection scored))
    by reflexivity.
  destruct (negb (riskLevel d =? "low")).
  2: { rewrite andb_false_r. auto. }
  rewrite andb_true_r, (sendFloodAlert_spec _ _ _ _ D), SA, F. cbn [snd].
  clearbody broadcast.
  destruct (firebaseInitialized scored); cbn; [| auto].
  destruct (fcm_send (alert_env env)) as [[] | e1];
    [destruct (alert_save (alert_env env)) as [[] | e2] |]; cbn;
    unfold broadcasts, messages, logged in *; cbn;
    rewrite ?List.filter_app; cbn; rewrite ?app_nil_r, ?C, ?insert_insert_eq;
    rewrite B, N; auto.
Qed.

Lemma stateless_ret {A} (a : A) : stateless (ret a).
Proof. intros w w'. reflexivity. Qed.

Lemma stateless_lift {A} (c : Completion A) : stateless (lift c).
Proof. intros w w'. reflexivity. Qed.

Lemma stateless_bind {A B} (c : M A) (k : A -> M B) :
  stateless c -> (forall a, stateless (k a)) -> stateless (bind c k).
Proof.
  intros C K w w'. unfold bind. specialize (C w w').
  destruct (c w) as [[a | e] w1], (c w') as [[a' | e'] w1']; cbn in C;
    try discriminate C; injection C as <-; [apply K | reflexivity].
Qed.

Lemma stateless_try_catch {A} (c : M A) (h : JsError -> M A) :
  stateless c -> (forall e, stateless (h e)) -> stateless (try_catch c h).
Proof.
  intros C K w w'. unfold try_catch. specialize (C w w').
  destruct (c w) as [[a | e] w1], (c w') as [[a' | e'] w1']; cbn in C;
    try discriminate C; injection C as <-; [reflexivity | apply K].
Qed.

Lemma stateless_axios_get (p : Provider) (response : AxiosOutcome) :
  stateless (axios_get p response).
Proof. intros w w'. destruct response; reflexivity. Qed.

Ltac stateless_step :=
  lazymatch goal with
  | |- stateless (ret _) => apply stateless_ret
  | |- stateless (lift _) => apply stateless_lift
  | |- stateless (axios_get _ _) => apply stateless_axios_get
  | |- stateless (bind _ _) => apply stateless_bind; [| intros ?]
  | |- stateless (try_catch _ _) => apply stateless_try_catch; [| intros ?]
  end.

(** The clients read nothing of the state of the process. *)
Lemma stateless_clients (response : AxiosOutcome) (lat lng : number) :
  stateless (fetchRainfallData response lat lng) /\
  stateless (fetchWaterLevel response) /\
  stateless (fetchSoilMoisture response lat lng).
Proof.
  unfold fetchRainfallData, fetchWaterLevel, fetchSoilMoisture.
  repeat split; repeat stateless_step.
Qed.

(** The score depends on the state through the model state only. *)
Lemma predictFloodRisk_fst (env : EngineEnv) (r wl s : number) (w w' : World) :
  engine w = engine w' ->
  fst (predictFloodRisk env r wl s w) = fst (predictFloodRisk env r wl s w').
Proof.
  intros E. rewrite !predictFloodRisk_spec, !engine_after_load, E.
  destruct (model (fst (load_step env (engine w'))));
    [destruct (predict_tfjs env || predict_tfjs_node env) |]; reflexivity.
Qed.

(** One run of the job, seen from the state [w] it starts in. *)
Lemma ingestion_cycle (env : CycleEnv) (w : World) :
  exists r1 r2 r3 x scored,
    fst (fetchRainfallData (rainfall_response env) 6.45 3.39 w) = Normal r1 /\
    fst (fetchWaterLevel (waterLevel_response env) w) = Normal r2 /\
    fst (fetchSoilMoisture (soilMoisture_response env) 6.45 3.39 w)
    = Normal r3 /\
    fst (predictFloodRisk (engine_env env) (value r1) (value r2) (value r3) w)
    = Normal x /\
    same_store w scored /\ messages scored = messages w /\
    broadcasts scored = broadcasts w /\
    ingestion env w
    = (Normal tt,
       after_cycle env scored (cycle_document env (next_id w) r1 r2 r3 x)).
Proof.
  destruct (ingestion_spec env w)
    as (r1 & r2 & r3 & x & scored & E1 & E2 & E3 & E4 & S & N & B & I).
  exists r1, r2, r3, x, scored.
  destruct (stateless_clients (waterLevel_response env) 6.45 3.39)
    as (_ & W & _).
  destruct (stateless_clients (soilMoisture_response env) 6.45 3.39)
    as (_ & _ & SM).
  split; [rewrite E1; reflexivity |].
  split; [erewrite W, E2; reflexivity |].
  split; [erewrite SM, E3; reflexivity |].
  split; [erewrite predictFloodRisk_fst, E4; reflexivity |].
  auto.
Qed.

(** X11: when saving the new record fails, the job ends there and swallows
    the error: the collection is what it was, nothing is broadcast to the
    clients and nothing is given to Firebase. *)
Theorem failed_save_aborts_cycle (env : CycleEnv) (w : World) (e : JsError) :
  ingestion_save env = Throw e ->
  exists w',
    ingestion env w = (Normal tt, w') /\
    collection w' = collection w /\
    broadcasts w' = broadcasts w /\
    messages w' = messages w.
Proof.
  intros SV.
  destruct (ingestion_cycle env w)
    as (r1 & r2 & r3 & x & scored & _ & _ & _ & _ & S & N & B & I).
  eexists. split; [exact I |].
  destruct (after_cycle_spec env scored
              (cycle_document env (next_id w) r1 r2 r3 x) eq_refl) as (_ & A).
  rewrite SV in A. destruct A as (C' & B' & N').
  destruct S as (_ & C & _).
  rewrite C', B', N'. auto.
Qed.

(** X12: when the save succeeds, the job broadcasts exactly one
    [floodUpdate], of the record it made: the readings the three clients
    return, the score [predictFloodRisk] gives for them and the level of
    that score, at 6.45, 3.39, with [sentAlert] false (also when an alert
    follows).  The record is stored under its own fresh [_id], with or
    without [sentAlert] set, and no other record of the collection
    changes. *)
Theorem saved_cycle_broadcasts_record (env : CycleEnv) (w : World) :
  ingestion_save env = Normal tt ->
  exists r1 r2 r3 x w',
    fst (fetchRainfallData (rainfall_response env) 6.45 3.39 w) = Normal r1 /\
    fst (fetchWaterLevel (waterLevel_response env) w) = Normal r2 /\
    fst (fetchSoilMoisture (soilMoisture_response env) 6.45 3.39 w)
    = Normal r3 /\
    fst (predictFloodRisk (engine_env env) (value r1) (value r2) (value r3) w)
    = Normal x /\
    let d := cycle_document env (next_id w) r1 r2 r3 x in
    ingestion env w = (Normal tt, w') /\
    broadcasts w' = (broadcasts w ++ [IoEmit "floodUpdate" d])%list /\
    (collection w' !! next_id w = Some d \/
     collection w' !! next_id w = Some (set_sentAlert true d)) /\
    (forall id, id <> next_id w -> collection w' !! id = collection w !! id).
Proof.
  intros SV.
  destruct (ingestion_cycle env w)
    as (r1 & r2 & r3 & x & scored & E1 & E2 & E3 & E4 & S & N & B & I).
  exists r1, r2, r3, x. eexists.
  split; [exact E1 |]. split; [exact E2 |]. split; [exact E3 |].
  split; [exact E4 |]. cbv zeta. split; [exact I |].
  destruct (after_cycle_spec env scored
              (cycle_document env (next_id w) r1 r2 r3 x) eq_refl) as (_ & A).
  rewrite SV in A. destruct A as (B' & A). cbn [doc_id cycle_document] in A.
  destruct S as (_ & C & _).
  split; [rewrite B', B; reflexivity |].
  assert (K : collection
                (after_cycle env scored
                   (cycle_document env (next_id w) r1 r2 r3 x))
              = <[next_id w := cycle_document env (next_id w) r1 r2 r3 x]>
                  (collection w) \/
              collection
                (after_cycle env scored
                   (cycle_document env (next_id w) r1 r2 r3 x))
              = <[next_id w :=
                    set_sentAlert true
                      (cycle_document env (next_id w) r1 r2 r3 x)]>
                  (collection w)).
  { rewrite <- C.
    destruct (firebaseInitialized scored && _);
      [| left; apply A].
    destruct A as (_ & A).
    destruct (fcm_send (alert_env env)) as [[] | e1];
      [destruct (alert_save (alert_env env)) as [[] | e2] |]; auto. }
  split.
  - destruct K as [-> | ->]; rewrite lookup_insert_eq; auto.
  - intros id D. destruct K as [-> | ->]; apply lookup_insert_ne; auto.
Qed.

(** X13: when the save succeeds, the job gives Firebase a message exactly
    when Firebase was initialised and the level of the record is not low;
    it is one message, about the record that was broadcast.  The stored
    record has [sentAlert] set exactly when moreover the send and the save
    that follows it succeed. *)
Theorem cycle_alert (env : CycleEnv) (w : World) :
  ingestion_save env = Normal tt ->
  exists d w',
    ingestion env w = (Normal tt, w') /\
    broadcasts w' = (broadcasts w ++ [IoEmit "floodUpdate" d])%list /\
    riskLevel d = riskLevelOf (prediction d) /\
    if firebaseInitialized w && negb (riskLevelOf (prediction d) =? "low")
    then
      messages w' = (messages w ++ [FcmSend (alert_message d)])%list /\
      sentAlert <$> collection w' !! doc_id d
      = Some match fcm_send (alert_env env), alert_save (alert_env env) with
             | Normal _, Normal _ => true
             | _, _ => false
             end
    else
      messages w' = messages w /\
      sentAlert <$> collection w' !! doc_id d = Some false.
Proof.
  intros SV.
  destruct (ingestion_cycle env w)
    as (r1 & r2 & r3 & x & scored & _ & _ & _ & _ & S & N & B & I).
  exists (cycle_document env (next_id w) r1 r2 r3 x). eexists.
  split; [exact I |].
  destruct (after_cycle_spec env scored
              (cycle_document env (next_id w) r1 r2 r3 x) eq_refl) as (_ & A).
  rewrite SV in A. destruct A as (B' & A).
  destruct S as (_ & _ & _ & F). rewrite F in A.
  split; [rewrite B', B; reflexivity |].
  split; [reflexivity |].
  change (riskLevel (cycle_document env (next_id w) r1 r2 r3 x))
    with (riskLevelOf x) in A.
  change (prediction (cycle_document env (next_id w) r1 r2 r3 x)) with x.
  destruct (firebaseInitialized w && negb (riskLevelOf x =? "low"));
    destruct A as (-> & ->); rewrite N; (split; [reflexivity |]).
  - destruct (fcm_send (alert_env env)) as [[] | e1];
      [destruct (alert_save (alert_env env)) as [[] | e2] |];
      rewrite lookup_insert_eq; reflexivity.
  - rewrite lookup_insert_eq. reflexivity.
Qed.

(** X14: a run of the job while the three providers are unreachable and
    the engine is in heuristic mode stores and broadcasts a record like
    any other: rainfall 0, water level 2.1, soil moisture 0.5, a score of
    5 and the level low.  Only its three sources say "fallback", and
    nothing is given to Firebase. *)
Theorem degraded_cycle (env : CycleEnv) (w : World) (e1 e2 e3 : JsError) :
  rainfall_response env = Rejected e1 ->
  waterLevel_response env = Rejected e2 ->
  soilMoisture_response env = Rejected e3 ->
  modelLoadAttempted (engine w) = true -> model (engine w) = None ->
  ingestion_save env = Normal tt ->
  let d :=
    {| doc_id := next_id w; timestamp := now env; lat := 6.45; lng := 3.39;
       rainfall := 0; waterLevel := 2.1; soilMoisture := 0.5;
       prediction := 5; riskLevel := "low"; sentAlert := false;
       dataSource := {| rainfallSource := "fallback";
                        waterLevelSource := "fallback";
                        soilMoistureSource := "fallback" |} |} in
  exists w',
    ingestion env w = (Normal tt, w') /\
    broadcasts w' = (broadcasts w ++ [IoEmit "floodUpdate" d])%list /\
    messages w' = messages w /\
    collection w' = <[next_id w := d]> (collection w).
Proof.
  intros R1 R2 R3 A M SV d.
  destruct (ingestion_cycle env w)
    as (r1 & r2 & r3 & x & scored & E1 & E2 & E3 & E4 & S & N & B & I).
  rewrite R1 in E1. rewrite R2 in E2. rewrite R3 in E3.
  injection E1 as <-. injection E2 as <-. injection E3 as <-.
  rewrite (predictFloodRisk_heuristic _ _ _ _ _ A M) in E4.
  injection E4 as <-.
  eexists. split; [exact I |].
  destruct (after_cycle_spec env scored
              (cycle_document env (next_id w)
                 {| value := 0; source := "fallback" |}
                 {| value := 2.1; source := "fallback" |}
                 {| value := 0.5; source := "fallback" |}
                 (calculateRiskFallback 0 2.1 0.5)) eq_refl) as (_ & K).
  rewrite SV in K. destruct K as (B' & K).
  change (riskLevel (cycle_document _ _ _ _ _ _) =? "low") with true in K.
  rewrite andb_false_r in K. destruct K as (N' & C').
  destruct S as (_ & C & _).
  rewrite B', N', C', B, N, C. auto.
Qed.

End MoreIngestion.

Lemma failed_save_aborts_cycle_witness :
  exists w',
    @ingestion NaN_builtins (unreachable (Throw (Error "buffering timed out")))
      (initial_world true)
    = (Normal tt, w') /\
    collection w' = collection (initial_world true) /\
    broadcasts w' = broadcasts (initial_world true) /\
    messages w' = messages (initial_world true).
Proof.
  apply (@failed_save_aborts_cycle NaN_builtins
           (unreachable (Throw (Error "buffering timed out")))
           (initial_world true) (Error "buffering timed out")).
  reflexivity.
Defined.

(** ** The process without Firebase, and the counts of the collection *)

Section MoreProcess.
Context `{JsBuiltins}.
#[local] Open Scope string_scope.

(** What one step does to the Firebase flag, the messages and the
    collection. *)
Lemma step_store (st : Step) (w : World) :
  firebaseInitialized (step st w) = firebaseInitialized w /\
  (firebaseInitialized w = false -> messages (step st w) = messages w) /\
  (collection (step st w) = collection w \/
   exists d,
     riskLevel d = riskLevelOf (prediction d) /\
     (firebaseInitialized w = false -> sentAlert d = false) /\
     collection (step st w) = <[next_id w := d]> (collection w)).
Proof.
  destruct st as [env | env]; cbn [step].
  - destruct (ingestion_cycle env w)
      as (r1 & r2 & r3 & x & scored & _ & _ & _ & _ & S & N & _ & ->).
    cbn [snd]. set (d := cycle_document env (next_id w) r1 r2 r3 x).
    destruct (after_cycle_spec env scored d eq_refl) as (F & A).
    destruct S as (_ & C & _ & F'). rewrite F' in *. rewrite C, N in A.
    split; [exact F |].
    destruct (ingestion_save env) as [[] | e].
    + destruct A as (_ & A).
      destruct (firebaseInitialized w) eqn:FW; cbn [andb] in A.
      * split; [discriminate |]. right.
        destruct (negb (riskLevel d =? "low")); destruct A as (_ & ->).
        -- destruct (fcm_send (alert_env env)) as [[] | e1];
             [destruct (alert_save (alert_env env)) as [[] | e2] |];
             try (exists d; repeat split; discriminate).
           exists (set_sentAlert true d). repeat split. discriminate.
        -- exists d. repeat split.
      * destruct A as (-> & ->). split; [reflexivity |]. right.
        exists d. repeat split.
    + destruct A as (-> & _ & ->). auto.
  - rewrite manual_trigger_spec. cbn [snd].
    split; [reflexivity |]. split; [| left; reflexivity].
    intros _. unfold messages, logged. cbn. rewrite List.filter_app. cbn.
    apply app_nil_r.
Qed.

Lemma run_without_firebase (steps : list Step) (w : World) :
  firebaseInitialized w = false ->
  firebaseInitialized (run steps w) = false /\
  messages (run steps w) = messages w /\
  (map_Forall (fun _ d => sentAlert d = false) (collection w) ->
   map_Forall (fun _ d => sentAlert d = false) (collection (run steps w))).
Proof.
  revert w. induction steps as [| st steps IH]; intros w F; [auto |].
  cbn [run fold_left]. fold (run steps (step st w)).
  destruct (step_store st w) as (F' & N' & C').
  rewrite F in F'. destruct (IH (step st w) F') as (F'' & N'' & C'').
  split; [exact F'' |]. split; [rewrite N''; apply N', F |].
  intros C. apply C''.
  destruct C' as [-> | (d & _ & SA & ->)]; [exact C |].
  apply map_Forall_insert_2; auto.
Qed.

Lemma on_listening_store (env : EngineEnv) (w : World) :
  same_store w (snd (on_listening env w)) /\
  messages (snd (on_listening env w)) = messages w.
Proof.
  assert (E : snd (on_listening env w) = after_load env w).
  { unfold on_listening, bind. rewrite loadModel_spec. reflexivity. }
  rewrite E. split; [repeat split |].
  unfold messages. rewrite trace_after_load, List.filter_app.
  unfold load_step.
  destruct (model (engine w)); [| destruct (modelLoadAttempted (engine w));
    [| destruct (load_tfjs env || load_tfjs_node env);
       [destruct (negb (model_file_exists env));
          [| destruct (loadLayersModel env)] |]]];
    cbn; apply app_nil_r.
Qed.

(** X15: Firebase stays uninitialised when the first configuration that is
    present does not parse (there is no falling through to the next one),
    or when [initializeApp] throws.  No step of the process sets
    [firebaseInitialized], and while it is false no run, however long,
    gives Firebase a message or sets [sentAlert] on a stored record: a
    process that started without Firebase never alerts. *)
Theorem without_firebase_no_alert (fenv : FirebaseEnv) :
  (forall text e,
     FIREBASE_CONFIG_BASE64 fenv = Some text -> text <> "" ->
     JSON_parse fenv (base64_decode fenv text) = Throw e ->
     firebase_init fenv = false) /\
  (forall e,
     (forall account, initializeApp fenv account = Throw e) ->
     firebase_init fenv = false) /\
  (forall w0 steps,
     firebaseInitialized w0 = false ->
     let w := run steps w0 in
     firebaseInitialized w = false /\
     messages w = messages w0 /\
     ((forall id d, collection w0 !! id = Some d -> sentAlert d = false) ->
      forall id d, collection w !! id = Some d -> sentAlert d = false)) /\
  (firebase_init fenv = false ->
   forall startup steps,
     let started :=
       snd (on_listening startup (initial_world (firebase_init fenv))) in
     let w := run steps started in
     messages w = [] /\
     forall id d, collection w !! id = Some d -> sentAlert d = false).
Proof.
  split; [| split; [| split]].
  - intros text e B T P. unfold firebase_init. rewrite B. cbn.
    destruct (String.eqb_spec text ""); [contradiction |]. cbn.
    rewrite P. reflexivity.
  - intros e I. unfold firebase_init.
    destruct (if truthy _ then _ else _); [rewrite I |]; reflexivity.
  - intros w0 steps F. cbv zeta.
    destruct (run_without_firebase steps w0 F) as (F' & N & C). auto.
  - intros ->. intros startup steps started w.
    destruct (on_listening_store startup (initial_world false))
      as ((_ & C0 & _ & F0) & N0).
    fold started in C0, F0, N0.
    destruct (run_without_firebase steps started F0) as (_ & N & C).
    fold w in N, C.
    split; [rewrite N, N0; reflexivity |].
    apply C. rewrite C0. apply map_Forall_empty.
Qed.




End MoreProcess.

(** ** The log of the dashboard *)

Section DashboardLog.
Context {Doc Entry : Type} (render : Doc -> Completion Entry).

Lemma addLogEntry_rendered (d : Doc) (entry : Entry) (log : list Entry) :
  render d = Normal entry -> (length log <= 20)%nat ->
  Dashboard.addLogEntry render d log = (Normal tt, firstn 20 (entry :: log)).
Proof.
  intros R L. unfold Dashboard.addLogEntry. rewrite R. f_equal.
  destruct (Nat.ltb_spec 20 (length (entry :: log))) as [G | G].
  - rewrite removelast_firstn_len. f_equal. cbn [length] in *. lia.
  - symmetry. apply firstn_all2. exact G.
Qed.

Lemma forEach_app (records more : list Doc) (log : list Entry) :
  Dashboard.forEach render (records ++ more) log
  = match Dashboard.forEach render records log with
    | (Normal _, log') => Dashboard.forEach render more log'
    | (Throw err, log') => (Throw err, log')
    end.
Proof.
  revert log. induction records as [| d records IH]; intros log; [reflexivity |].
  cbn [app Dashboard.forEach].
  destruct (Dashboard.addLogEntry render d log) as [[[] | err] log'];
    [apply IH | reflexivity].
Qed.

(** X17: the log of the dashboard holds the 20 newest entries, newest
    first.  A record that renders is put in front, and the log, if it had
    at most 20 entries, is cut back to 20 by dropping the oldest; a record
    that does not render leaves the log as it is.  After [historical],
    whatever the log held, it shows the first 20 of the records in the
    order the server sent them. *)
Theorem dashboard_log_newest_20 :
  (forall d entry log,
     render d = Normal entry -> (length log <= 20)%nat ->
     Dashboard.addLogEntry render d log = (Normal tt, firstn 20 (entry :: log))) /\
  (forall d log,
     (length log <= 20)%nat ->
     (length (snd (Dashboard.addLogEntry render d log)) <= 20)%nat) /\
  (forall d err log,
     render d = Throw err ->
     Dashboard.addLogEntry render d log = (Throw err, log)) /\
  (forall records entries log,
     map render records = map Normal entries ->
     Dashboard.on_historical render records log
     = (Normal tt, firstn 20 entries)).
Proof.
  split; [exact addLogEntry_rendered |]. split; [| split].
  - intros d log L. destruct (render d) as [entry | err] eqn:R.
    + rewrite (addLogEntry_rendered d entry log R L). cbn [snd].
      rewrite length_firstn. lia.
    + unfold Dashboard.addLogEntry. rewrite R. exact L.
  - intros d err log R. unfold Dashboard.addLogEntry. rewrite R. reflexivity.
  - intros records entries log. unfold Dashboard.on_historical. clear log.
    revert entries. induction records as [| d records IH]; intros entries E.
    + destruct entries; [reflexivity | discriminate E].
    + destruct entries as [| entry entries]; [discriminate E |].
      cbn [map] in E. injection E as R E'.
      cbn [rev]. rewrite forEach_app, (IH entries E').
      cbn [Dashboard.forEach].
      rewrite (addLogEntry_rendered d entry _ R)
        by (rewrite length_firstn; lia).
      f_equal. cbn [firstn]. f_equal.
      rewrite firstn_firstn. reflexivity.
Qed.

End DashboardLog.

(** ** The labels of the training script *)

Section TrainingLabels.
#[local] Open Scope Q_scope.

Lemma number_div_Finite (a b : Q) :
  ~ b == 0 -> number_div (Finite a) (Finite b) = Finite (a / b).
Proof.
  intros N. cbn. destruct (Qeq_bool b 0) eqn:E; [| reflexivity].
  apply Qeq_bool_iff in E. contradiction.
Qed.

(** X18: the label the training script gives an example is at most 1, and
    at least 0 when the three inputs are; whenever the combined-effect
    multiplier applies (rainfall above 30, water level above 4 and soil
    moisture above 0.8) the label is 1. *)
Theorem training_label_range (rainfall soilMoisture waterLevel : Q) :
  exists label : Q,
    TrainModel.label rainfall soilMoisture waterLevel = Finite label /\
    label <= 1 /\
    (0 <= rainfall -> 0 <= soilMoisture -> 0 <= waterLevel -> 0 <= label) /\
    (30 < rainfall -> 4 < waterLevel -> 0.8 < soilMoisture -> label == 1).
Proof.
  unfold TrainModel.label.
  rewrite !number_gt_Finite, !number_div_Finite by discriminate.
  cbn [number_add].
  destruct (Qltb 40 rainfall) eqn:R40, (Qltb 25 rainfall) eqn:R25,
    (Qltb 15 rainfall) eqn:R15, (Qltb 30 rainfall) eqn:R30;
    tests_to_Q; try (exfalso; lra);
    destruct (Qltb 4.5 waterLevel) eqn:W45, (Qltb 3.5 waterLevel) eqn:W35,
      (Qltb 2.5 waterLevel) eqn:W25, (Qltb 4 waterLevel) eqn:W4;
    tests_to_Q; try (exfalso; lra);
    destruct (Qltb 0.85 soilMoisture) eqn:S85, (Qltb 0.7 soilMoisture) eqn:S7,
      (Qltb 0.8 soilMoisture) eqn:S8;
    tests_to_Q; try (exfalso; lra);
    cbn [andb number_add number_mul]; rewrite !Math_min_Finite;
    eexists; (split; [reflexivity |]);
    repeat match goal with
    | |- context [Qltb ?a ?b] => destruct (Qltb a b) eqn:?
    end;
    tests_to_Q; repeat split; intros; unfold Qdiv in *;
    change (/ 100) with (1 # 100) in *; change (/ 30) with (1 # 30) in *;
    change (/ 10) with (1 # 10) in *; lra.
Qed.

End TrainingLabels.

(** ** The summary of the test script *)

Section TestSummary.
#[local] Open Scope Q_scope.

(** X19: the three counts of the summary of the test script cover every
    result but those whose risk is [NaN], which are counted nowhere; on
    the heuristic, for cases with a finite rainfall, the counts add up to
    the number of cases. *)
Theorem summary_counts_add_up :
  (forall results : list number,
     (TestPrediction.lowRisk results + TestPrediction.mediumRisk results
      + TestPrediction.highRisk results
      + length (List.filter is_NaN results))%nat
     = length results) /\
  (forall cases : list (Q * number * number),
     let results :=
       map (fun test =>
              calculateRiskFallback (Finite (fst (fst test))) (snd (fst test))
                (snd test)) cases in
     (TestPrediction.lowRisk results + TestPrediction.mediumRisk results
      + TestPrediction.highRisk results)%nat
     = length cases).
Proof.
  assert (A : forall results : list number,
             (TestPrediction.lowRisk results
              + TestPrediction.mediumRisk results
              + TestPrediction.highRisk results
              + length (List.filter is_NaN results))%nat
             = length results).
  { assert (One : forall risk : number,
               (Nat.b2n (number_lt risk 30%Q)
                + Nat.b2n (number_ge risk 30%Q && number_lt risk 70%Q)
                + Nat.b2n (number_ge risk 70%Q) + Nat.b2n (is_NaN risk))%nat
               = 1%nat).
    { intros [q | | |]; try reflexivity.
      unfold number_lt, number_ge, number_gt, Qltb, is_NaN.
      destruct (Qle_bool 30 q) eqn:Q30, (Qle_bool 70 q) eqn:Q70;
        try reflexivity.
      apply Qle_bool_iff in Q70.
      assert (N : Qle_bool 30 q = true) by (apply Qle_bool_iff; lra).
      congruence. }
    unfold TestPrediction.lowRisk, TestPrediction.mediumRisk,
      TestPrediction.highRisk.
    induction results as [| risk results IH]; [reflexivity |].
    cbn [List.filter]. specialize (One risk). revert One.
    destruct (number_lt risk 30%Q), (number_ge risk 30%Q),
      (number_lt risk 70%Q), (number_ge risk 70%Q), (is_NaN risk);
      cbn [length Nat.b2n andb]; intros One; lia. }
  split; [exact A |].
  intros cases results.
  assert (Len : length results = length cases) by apply length_map.
  rewrite <- Len, <- (A results).
  assert (N : List.filter is_NaN results = []).
  { unfold results. clear. induction cases as [| [[r w] s] cases IH];
      [reflexivity |].
    cbn [map List.filter fst snd]. rewrite calculateRiskFallback_score.
    exact IH. }
  rewrite N. cbn. lia.
Qed.

End TestSummary.

(** ** The input of the model *)

(** X20: the row the server gives the model is laid out as the rows the
    model was trained on: rainfall over 50, soil moisture, water level
    over 6, then the two dummy features, for which the server puts 0.05. *)
Theorem model_input_is_training_row (env : EngineEnv) (m : LayersModel)
    (r wl s : number) (w : World) :
  model (engine w) = Some m ->
  predict_tfjs env || predict_tfjs_node env = true ->
  trace (snd (predictFloodRisk env r wl s w))
  = (trace w ++ [Predict (TrainModel.features r s wl 0.05%Q 0.05%Q)])%list.
Proof.
  intros M T.
  rewrite predictFloodRisk_spec, (after_load_loaded env w m M), M, T.
  reflexivity.
Qed.

(** ** Examples *)


Lemma saved_cycle_broadcasts_record_witness :
  let env := unreachable (Normal tt) in
  let w := initial_world true in
  exists r1 r2 r3 x w',
    fst (@fetchRainfallData NaN_builtins (rainfall_response env) 6.45%Q 3.39%Q w)
    = Normal r1 /\
    fst (@fetchWaterLevel NaN_builtins (waterLevel_response env) w)
    = Normal r2 /\
    fst (@fetchSoilMoisture NaN_builtins (soilMoisture_response env)
           6.45%Q 3.39%Q w)
    = Normal r3 /\
    fst (predictFloodRisk (engine_env env) (value r1) (value r2) (value r3) w)
    = Normal x /\
    let d := cycle_document env (next_id w) r1 r2 r3 x in
    @ingestion NaN_builtins env w = (Normal tt, w') /\
    broadcasts w' = (broadcasts w ++ [IoEmit "floodUpdate" d])%list /\
    (collection w' !! next_id w = Some d \/
     collection w' !! next_id w = Some (set_sentAlert true d)) /\
    (forall id, id <> next_id w -> collection w' !! id = collection w !! id).
Proof.
  intros env w.
  apply (@saved_cycle_broadcasts_record NaN_builtins env w). reflexivity.
Defined.

Lemma cycle_alert_witness :
  let env := unreachable (Normal tt) in
  let w := initial_world true in
  exists d w',
    @ingestion NaN_builtins env w = (Normal tt, w') /\
    broadcasts w' = (broadcasts w ++ [IoEmit "floodUpdate" d])%list /\
    riskLevel d = riskLevelOf (prediction d) /\
    if firebaseInitialized w
       && negb (String.eqb (riskLevelOf (prediction d)) "low")
    then
      messages w' = (messages w ++ [FcmSend (alert_message d)])%list /\
      sentAlert <$> collection w' !! doc_id d
      = Some match fcm_send (alert_env env), alert_save (alert_env env) with
             | Normal _, Normal _ => true
             | _, _ => false
             end
    else
      messages w' = messages w /\
      sentAlert <$> collection w' !! doc_id d = Some false.
Proof.
  intros env w. apply (@cycle_alert NaN_builtins env w). reflexivity.
Defined.

Lemma degraded_cycle_witness :
  let env := unreachable (Normal tt) in
  let w := snd (loadModel no_tensorflow (initial_world true)) in
  let d :=
    {| doc_id := next_id w; timestamp := now env;
       lat := 6.45%Q; lng := 3.39%Q;
       rainfall := 0%Q; waterLevel := 2.1%Q; soilMoisture := 0.5%Q;
       prediction := 5%Q; riskLevel := "low"; sentAlert := false;
       dataSource := {| rainfallSource := "fallback";
                        waterLevelSource := "fallback";
                        soilMoistureSource := "fallback" |} |} in
  exists w',
    @ingestion NaN_builtins env w = (Normal tt, w') /\
    broadcasts w' = (broadcasts w ++ [IoEmit "floodUpdate" d])%list /\
    messages w' = messages w /\
    collection w' = <[next_id w := d]> (collection w).
Proof.
  intros env w.
  apply (@degraded_cycle NaN_builtins env w (Error "Network Error")
           (Error "Network Error") (Error "Network Error"));
    reflexivity.
Defined.


Lemma model_input_is_training_row_witness :
  let env :=
    {| load_tfjs := true; load_tfjs_node := false; model_file_exists := true;
       loadLayersModel := Normal {| artifact := "ai-model/model.json" |};
       predict_tfjs := true; predict_tfjs_node := false;
       inference := Normal (Finite 0.82) |} in
  let w := snd (loadModel env (initial_world true)) in
  trace (snd (predictFloodRisk env 45%Q 4.2%Q 0.7%Q w))
  = (trace w
     ++ [Predict (TrainModel.features 45%Q 0.7%Q 4.2%Q 0.05%Q 0.05%Q)])%list.
Proof.
  intros env w.
  apply (model_input_is_training_row env
           {| artifact := "ai-model/model.json" |} 45%Q 4.2%Q 0.7%Q w);
    reflexivity.
Defined.
